(** * SRP Spatial Dashboard: the filter pipeline and its projections

    A shallow embedding of [SRP_Spatial_Dashboard.py]: the module-level
    load of the Master Dictionary, the two Dash callbacks [update_views]
    and [download_data], and the parts of pandas, geopandas, plotly
    express, Dash and the csv module that they call.

    Definitions:
    - [Py]: Python exceptions, the result monad, truthiness;
    - [Csv]: the csv writer behind [to_csv], and the csv reader;
    - [Pandas]: cells, frames, dtypes, column access, masks, [isin],
      [unique], the comparison of a column with a date string, [min],
      [max], [to_csv];
    - [Geopandas], [Plotly], [Dash]: the values the program builds with
      these libraries;
    - [Dashboard]: the program;
    - [Iso], [Render]: ISO dates and written columns, instances of the
      date conversion and of the rendering of pandas;
    - [Spec]: the filter pipeline and the projections as the
      specification words them;
    - [Sample]: the records of the scenarios.

    Theory: masks and filters, the stages of the filter, the views, the
    csv round trip, the claims C1 to C10, and further properties of the
    program. *)

From Stdlib Require Import List String Ascii ZArith Bool Lia.
From Stdlib Require Import DecimalString.
Import ListNotations.

Local Open Scope string_scope.
Local Open Scope list_scope.

(* ===================================================================== *)
(** ** Python values and control *)
(* ===================================================================== *)

Module Py.

(** The exceptions the program can raise. *)
Inductive exception : Type :=
| FileNotFoundError
| KeyError (key : string)
| TypeError
| ValueError.

(** A computation either returns or raises. *)
Inductive result (A : Type) : Type :=
| Ok (a : A)
| Raise (e : exception).

Arguments Ok {A} a.
Arguments Raise {A} e.

Definition bind {A B : Type} (m : result A) (k : A -> result B) : result B :=
  match m with
  | Ok a => k a
  | Raise e => Raise e
  end.

Definition raises {A : Type} (m : result A) : Prop :=
  exists e, m = Raise e.

(** Truthiness of the three kinds of callback argument: a list or
    [None] (multi dropdown), a string or [None] (date picker), an
    integer or [None] (the click counter of a button). *)
Definition truthy_list {A : Type} (v : option (list A)) : bool :=
  match v with
  | Some (_ :: _) => true
  | _ => false
  end.

Definition truthy_str (v : option string) : bool :=
  match v with
  | Some (String _ _) => true
  | _ => false
  end.

Definition truthy_int (v : option Z) : bool :=
  match v with
  | Some n => negb (Z.eqb n 0)
  | None => false
  end.

(** [str(n)] for a natural number. *)
Definition str_nat (n : nat) : string :=
  NilZero.string_of_uint (Nat.to_uint n).

(** [str(n)] for an integer. *)
Definition str_int (n : Z) : string :=
  NilZero.string_of_int (Z.to_int n).

End Py.

Declare Scope py_scope.
Delimit Scope py_scope with py.
Notation "x <- m ;; k" := (Py.bind m (fun x => k))
  (at level 61, m at next level, right associativity) : py_scope.

Import Py.
Local Open Scope py_scope.

(* ===================================================================== *)
(** ** The csv module *)
(* ===================================================================== *)

Module Csv.

(** The characters of the dialect that pandas hands to the writer:
    comma delimiter, double quote, doubled quotes, and the line feed
    as line terminator. *)
Definition comma : ascii := ","%char.
Definition dquote : ascii := "034"%char.
Definition LF : ascii := "010"%char.
Definition CR : ascii := "013"%char.

(** The characters that make the writer quote a field: the delimiter,
    the quote and the characters of the line terminator.  A carriage
    return is not one of them. *)
Definition special (c : ascii) : bool :=
  Ascii.eqb c comma || Ascii.eqb c dquote || Ascii.eqb c LF.

(** Minimal quoting: a field is quoted when it holds a delimiter, a
    quote or a line feed. *)
Fixpoint needs_quote (s : string) : bool :=
  match s with
  | EmptyString => false
  | String c s' => special c || needs_quote s'
  end.

(** Inside a quoted field every quote is doubled. *)
Fixpoint escape (s : string) : string :=
  match s with
  | EmptyString => EmptyString
  | String c s' =>
      if Ascii.eqb c dquote then String dquote (String dquote (escape s'))
      else String c (escape s')
  end.

Definition write_field (s : string) : string :=
  if needs_quote s
  then String dquote (escape s ++ String dquote EmptyString)
  else s.

Fixpoint join_fields (fields : list string) : string :=
  match fields with
  | [] => EmptyString
  | [f] => write_field f
  | f :: fields' => write_field f ++ String comma (join_fields fields')
  end.

(** [writer.writerow(fields)]: the fields joined by commas and the line
    terminator; a record made of one empty field is written as a pair
    of quotes, so that it does not read back as an empty record. *)
Definition writerow (fields : list string) : string :=
  match fields with
  | [EmptyString] => String dquote (String dquote (String LF EmptyString))
  | _ => join_fields fields ++ String LF EmptyString
  end.

(** A field with a carriage return that the writer leaves unquoted. *)
Fixpoint holds_CR (s : string) : bool :=
  match s with
  | EmptyString => false
  | String c s' => Ascii.eqb c CR || holds_CR s'
  end.

Definition bare_CR (s : string) : bool := holds_CR s && negb (needs_quote s).

(** No field of the records has a carriage return left unquoted. *)
Definition no_bare_CR (records : list (list string)) : bool :=
  forallb (forallb (fun f => negb (bare_CR f))) records.

(** [writer.writerows(records)] *)
Fixpoint writerows (records : list (list string)) : string :=
  match records with
  | [] => EmptyString
  | r :: records' => writerow r ++ writerows records'
  end.

(** The reader of the same dialect, as the state machine of
    [csv.reader] run over the lines of the text, the text being opened
    with [newline=''] as the csv module asks: it is what gives a csv
    text its records.  Outside quotes a record ends at a line feed, at
    a carriage return, or at a carriage return and the line feed after
    it; inside quotes both are characters of the field. *)
Inductive mode : Type :=
| StartRecord
| AfterCR
| StartField
| InField
| InQuoted
| QuoteInQuoted.

(** The two modes in which a field begins. *)
Definition starting (m : mode) : Prop := m = StartRecord \/ m = StartField.

Definition snoc (s : string) (c : ascii) : string :=
  s ++ String c EmptyString.

Fixpoint read (m : mode) (done : list (list string)) (fields : list string)
    (cur : string) (s : string) : list (list string) :=
  match s with
  | EmptyString =>
      match m with
      | StartRecord | AfterCR => done
      | _ => done ++ [fields ++ [cur]]
      end
  | String c s' =>
      match m with
      | StartRecord =>
          if Ascii.eqb c LF then read StartRecord (done ++ [[]]) [] EmptyString s'
          else if Ascii.eqb c CR then read AfterCR (done ++ [[]]) [] EmptyString s'
          else if Ascii.eqb c dquote then read InQuoted done fields cur s'
          else if Ascii.eqb c comma
          then read StartField done (fields ++ [cur]) EmptyString s'
          else read InField done fields (snoc cur c) s'
      | AfterCR =>
          if Ascii.eqb c LF then read StartRecord done [] EmptyString s'
          else if Ascii.eqb c CR then read AfterCR (done ++ [[]]) [] EmptyString s'
          else if Ascii.eqb c dquote then read InQuoted done fields cur s'
          else if Ascii.eqb c comma
          then read StartField done (fields ++ [cur]) EmptyString s'
          else read InField done fields (snoc cur c) s'
      | StartField =>
          if Ascii.eqb c LF
          then read StartRecord (done ++ [fields ++ [cur]]) [] EmptyString s'
          else if Ascii.eqb c CR
          then read AfterCR (done ++ [fields ++ [cur]]) [] EmptyString s'
          else if Ascii.eqb c dquote then read InQuoted done fields cur s'
          else if Ascii.eqb c comma
          then read StartField done (fields ++ [cur]) EmptyString s'
          else read InField done fields (snoc cur c) s'
      | InField =>
          if Ascii.eqb c LF
          then read StartRecord (done ++ [fields ++ [cur]]) [] EmptyString s'
          else if Ascii.eqb c CR
          then read AfterCR (done ++ [fields ++ [cur]]) [] EmptyString s'
          else if Ascii.eqb c comma
          then read StartField done (fields ++ [cur]) EmptyString s'
          else read InField done fields (snoc cur c) s'
      | InQuoted =>
          if Ascii.eqb c dquote then read QuoteInQuoted done fields cur s'
          else read InQuoted done fields (snoc cur c) s'
      | QuoteInQuoted =>
          if Ascii.eqb c dquote then read InQuoted done fields (snoc cur c) s'
          else if Ascii.eqb c comma
          then read StartField done (fields ++ [cur]) EmptyString s'
          else if Ascii.eqb c LF
          then read StartRecord (done ++ [fields ++ [cur]]) [] EmptyString s'
          else if Ascii.eqb c CR
          then read AfterCR (done ++ [fields ++ [cur]]) [] EmptyString s'
          else read InField done fields (snoc cur c) s'
      end
  end.

(** [list(csv.reader(text))] *)
Definition reader (text : string) : list (list string) :=
  read StartRecord [] [] EmptyString text.

End Csv.

(* ===================================================================== *)
(** ** pandas *)
(* ===================================================================== *)

Module Pandas.

(** A cell of a frame.  [Timestamp t] carries the count of
    nanoseconds since the epoch, as pandas stores it; [NaT] is the
    missing value of a datetime column and [NaN] the missing value of
    any other column.  Numbers are modelled by integers: only their
    equality and their presence matter to the program. *)
Inductive value : Type :=
| NaN
| NaT
| Str (s : string)
| Num (n : Z)
| Timestamp (t : Z).

Definition value_eqb (a b : value) : bool :=
  match a, b with
  | NaN, NaN => true
  | NaT, NaT => true
  | Str s, Str s' => String.eqb s s'
  | Num n, Num n' => Z.eqb n n'
  | Timestamp t, Timestamp t' => Z.eqb t t'
  | _, _ => false
  end.

Definition Series : Type := list value.

(** A frame, row-major: the column labels in file order, and the rows
    in file order, each row holding one cell per column. *)
Record DataFrame : Type := mkDataFrame {
  columns : list string;
  rows : list (list value)
}.

(** [len(df)] *)
Definition len (df : DataFrame) : nat := List.length (rows df).

(** [df.copy()]: frames are values here, the copy is the frame. *)
Definition copy (df : DataFrame) : DataFrame := df.

(** Position of a label among the columns. *)
Fixpoint index_of (col : string) (cols : list string) : option nat :=
  match cols with
  | [] => None
  | c :: cols' =>
      if String.eqb col c then Some 0%nat
      else option_map S (index_of col cols')
  end.

Definition has_column (df : DataFrame) (col : string) : bool :=
  match index_of col (columns df) with
  | Some _ => true
  | None => false
  end.

(** The cell of a row at a position; a row that is too short reads as
    a missing cell. *)
Definition cell_at (i : nat) (row : list value) : value := nth i row NaN.

(** [df[col]]: the column as a series, [KeyError] when there is no
    such label. *)
Definition getitem (df : DataFrame) (col : string) : result Series :=
  match index_of col (columns df) with
  | Some i => Ok (map (cell_at i) (rows df))
  | None => Raise (KeyError col)
  end.

(** [row[col]] inside [iterrows()], where the label is one of the
    frame's own columns. *)
Definition row_get (df : DataFrame) (row : list value) (col : string) : value :=
  match index_of col (columns df) with
  | Some i => cell_at i row
  | None => NaN
  end.

(** [series.isin(values)] *)
Definition isin (s : Series) (values : list value) : list bool :=
  map (fun v => existsb (value_eqb v) values) s.

(** [mask1 & mask2] *)
Fixpoint mask_and (m1 m2 : list bool) : list bool :=
  match m1, m2 with
  | b1 :: m1', b2 :: m2' => (b1 && b2) :: mask_and m1' m2'
  | _, _ => []
  end.

(** Rows kept by a boolean mask, in their order. *)
Fixpoint select_rows {A : Type} (l : list A) (mask : list bool) : list A :=
  match l, mask with
  | x :: l', b :: mask' =>
      if b then x :: select_rows l' mask' else select_rows l' mask'
  | _, _ => []
  end.

(** [df[mask]] *)
Definition loc (df : DataFrame) (mask : list bool) : DataFrame :=
  {| columns := columns df; rows := select_rows (rows df) mask |}.

(** [series.unique()]: the distinct values, in order of first
    occurrence; a missing value counts as one value. *)
Fixpoint unique (s : Series) : Series :=
  match s with
  | [] => []
  | v :: s' => v :: filter (fun w => negb (value_eqb w v)) (unique s')
  end.

(** The kinds of cell. *)
Definition is_datetime (v : value) : bool :=
  match v with
  | Timestamp _ | NaT => true
  | _ => false
  end.

Definition is_str (v : value) : bool :=
  match v with
  | Str _ => true
  | _ => false
  end.

Definition is_int (v : value) : bool :=
  match v with
  | Num _ => true
  | _ => false
  end.

Definition is_number (v : value) : bool :=
  match v with
  | Num _ | NaN => true
  | _ => false
  end.

(** The dtype that a column gets when the workbook is read: a column
    with no cell is an object column; a column of timestamps and [NaT]
    is a datetime column; a column of numbers is an integer column,
    and a float column when a number is missing; any other column is
    an object column. *)
Inductive dtype : Type :=
| datetime64_ns
| int64
| float64
| object.

Definition infer (s : Series) : dtype :=
  match s with
  | [] => object
  | _ =>
      if forallb is_datetime s then datetime64_ns
      else if forallb is_int s then int64
      else if forallb is_number s then float64
      else object
  end.


Definition all_str (s : Series) : bool := forallb is_str s.
Definition numeric (s : Series) : bool := forallb is_number s.

Definition is_missing (v : value) : bool :=
  match v with
  | NaN | NaT => true
  | _ => false
  end.

(** The cells that an object column can compare with a string:
    strings and missing values. *)
Definition comparable (s : Series) : bool :=
  forallb (fun v => is_str v || is_missing v) s.

(** The dtype of a column of a frame as it was read; a frame obtained
    from it by a selection of rows keeps it for that column. *)
Definition dtype_of (df : DataFrame) (col : string) : dtype :=
  match getitem df col with
  | Ok s => infer s
  | Raise _ => object
  end.

Section Dates.

(** The conversion of a string to a timestamp that pandas applies
    when a datetime column is compared with a string.  It belongs
    to the library; the program is verified for any such
    conversion. *)
Variable to_datetime : string -> option Z.

(** [series >= other] and [series <= other] for a string [other] and a
    series of dtype [dt].  A datetime column converts the string and
    compares timestamps: a missing date compares false, and a string
    that is no date raises, whatever the series holds.  A numeric
    column raises.  An object column compares cell by cell: a string
    as a string, a missing value compares false, and any other cell
    raises. *)
Definition ge (dt : dtype) (s : Series) (other : string) : result (list bool) :=
  match dt with
  | datetime64_ns =>
      match to_datetime other with
      | Some b =>
          Ok (map (fun v => match v with
                            | Timestamp t => Z.leb b t
                            | _ => false
                            end) s)
      | None => Raise TypeError
      end
  | int64 | float64 => Raise TypeError
  | object =>
      if comparable s then
        Ok (map (fun v => match v with
                          | Str x => String.leb other x
                          | _ => false
                          end) s)
      else Raise TypeError
  end.

Definition le (dt : dtype) (s : Series) (other : string) : result (list bool) :=
  match dt with
  | datetime64_ns =>
      match to_datetime other with
      | Some b =>
          Ok (map (fun v => match v with
                            | Timestamp t => Z.leb t b
                            | _ => false
                            end) s)
      | None => Raise TypeError
      end
  | int64 | float64 => Raise TypeError
  | object =>
      if comparable s then
        Ok (map (fun v => match v with
                          | Str x => String.leb x other
                          | _ => false
                          end) s)
      else Raise TypeError
  end.

End Dates.

(** The timestamps, strings and numbers of a series, missing values
    skipped. *)
Fixpoint timestamps (s : Series) : list Z :=
  match s with
  | [] => []
  | Timestamp t :: s' => t :: timestamps s'
  | _ :: s' => timestamps s'
  end.

Fixpoint strings (s : Series) : list string :=
  match s with
  | [] => []
  | Str x :: s' => x :: strings s'
  | _ :: s' => strings s'
  end.

Fixpoint numbers (s : Series) : list Z :=
  match s with
  | [] => []
  | Num n :: s' => n :: numbers s'
  | _ :: s' => numbers s'
  end.

Definition str_min (a b : string) : string := if String.leb a b then a else b.
Definition str_max (a b : string) : string := if String.leb a b then b else a.

(** [series.min()] and [series.max()] of a column as it was read:
    missing values are skipped; a datetime column with no timestamp
    gives [NaT], any other column with no value, the column with no
    cell among them, gives [NaN]; an object column that holds a cell
    that is no string raises. *)
Definition min (s : Series) : result value :=
  match infer s with
  | datetime64_ns =>
      Ok (match timestamps s with
          | [] => NaT
          | t :: ts => Timestamp (fold_left Z.min ts t)
          end)
  | int64 | float64 =>
      Ok (match numbers s with
          | [] => NaN
          | n :: ns => Num (fold_left Z.min ns n)
          end)
  | object =>
      if all_str s then
        Ok (match strings s with
            | [] => NaN
            | x :: xs => Str (fold_left str_min xs x)
            end)
      else Raise TypeError
  end.

Definition max (s : Series) : result value :=
  match infer s with
  | datetime64_ns =>
      Ok (match timestamps s with
          | [] => NaT
          | t :: ts => Timestamp (fold_left Z.max ts t)
          end)
  | int64 | float64 =>
      Ok (match numbers s with
          | [] => NaN
          | n :: ns => Num (fold_left Z.max ns n)
          end)
  | object =>
      if all_str s then
        Ok (match strings s with
            | [] => NaN
            | x :: xs => Str (fold_left str_max xs x)
            end)
      else Raise TypeError
  end.

Section Formatting.

(** The texts that pandas writes for the cells of a column, given its
    label: one text per cell.  They depend on the dtype that the
    column got when the workbook was read (a number of a float column
    is written with its decimal point, a missing value as the empty
    text, the timestamps of a column with or without their time of
    day).  The rendering belongs to the library; the program is
    verified for any such rendering. *)
Variable format_column : string -> Series -> list string.

(** The cells of the column at a position. *)
Definition column_at (df : DataFrame) (i : nat) : Series :=
  map (cell_at i) (rows df).

(** The written columns of a frame, in the order of its labels. *)
Definition written_columns (df : DataFrame) : list (list string) :=
  map (fun il => format_column (snd il) (column_at df (fst il)))
      (combine (seq 0 (List.length (columns df))) (columns df)).

(** The written rows of a frame: row [j] holds, for each column, the
    [j]-th text of the written column. *)
Definition written_rows (df : DataFrame) : list (list string) :=
  map (fun j => map (fun col => nth j col EmptyString) (written_columns df))
      (seq 0 (len df)).

(** [df.to_csv(index=False)]: the header record of column labels, then
    one record per row, written by the csv writer. *)
Definition to_csv (df : DataFrame) : string :=
  (Csv.writerow (columns df) ++ Csv.writerows (written_rows df))%string.

End Formatting.

End Pandas.

(* ===================================================================== *)
(** ** geopandas, plotly express and Dash *)
(* ===================================================================== *)

Module Geopandas.

Import Pandas.

Record GeoDataFrame : Type := mkGeoDataFrame {
  frame : DataFrame;
  geometry : list (value * value);
  crs : string
}.

(** [gpd.points_from_xy(x, y)]: both series are converted to arrays of
    floats, which raises on a cell that is no number (a text cell is
    taken not to be one); a missing coordinate gives a point with no
    position. *)
Definition points_from_xy (x y : Series) : result (list (value * value)) :=
  if numeric x && numeric y then Ok (combine x y) else Raise ValueError.

End Geopandas.

Module Plotly.

Import Pandas.

(** The figure built by [px.scatter_mapbox]: one entry per row of the
    frame in [lat], [lon] and [customdata]; [customdata] holds, for each
    row, the cells of the [hover_data] columns. *)
Record Figure : Type := mkFigure {
  lat : Series;
  lon : Series;
  hover_data : list string;
  customdata : list (list value);
  zoom : Z;
  mapbox_style : string
}.

(** A column named in an argument of plotly express must be one of the
    frame's columns, or the call raises [ValueError]. *)
Definition column (df : DataFrame) (name : string) : result Series :=
  match getitem df name with
  | Ok s => Ok s
  | Raise _ => Raise ValueError
  end.

Fixpoint check_columns (df : DataFrame) (names : list string) : result unit :=
  match names with
  | [] => Ok tt
  | n :: names' => _ <- column df n ;; check_columns df names'
  end.

Definition scatter_mapbox (df : DataFrame) (lat lon : string)
    (hover_data : list string) (zoom : Z) (mapbox_style : string)
    : result Figure :=
  lat_s <- column df lat ;;
  lon_s <- column df lon ;;
  _ <- check_columns df hover_data ;;
  Ok {| lat := lat_s;
        lon := lon_s;
        hover_data := hover_data;
        customdata := map (fun row => map (row_get df row) hover_data) (rows df);
        zoom := zoom;
        mapbox_style := mapbox_style |}.

End Plotly.

Module Dash.

Import Pandas.

(** The html components the callbacks build. *)
#[local] Set Warnings "-register-all".
Inductive component : Type :=
| Table (children : list component)
| Thead (child : component)
| Tbody (children : list component)
| Tr (children : list component)
| Th (label : string)
| Td (content : value).

(** What a callback hands back for one output: a value, or
    [dash.no_update], which leaves the output as it is. *)
Inductive output (A : Type) : Type :=
| no_update
| Update (a : A).

Arguments no_update {A}.
Arguments Update {A} a.

(** The dictionary that [dcc.Download] turns into a file. *)
Record download : Type := mkDownload {
  content : string;
  filename : string;
  type : option string;
  base64 : bool
}.

(** [dcc.send_data_frame(writer, filename, **kwargs)] for a text
    writer, given the text the writer produces. *)
Definition send_data_frame (written : string) (filename : string) : download :=
  {| content := written; filename := filename; type := None; base64 := false |}.

End Dash.

(* ===================================================================== *)
(** ** The dashboard *)
(* ===================================================================== *)

Module Dashboard.

Import Pandas Geopandas Plotly Dash.

(** What the layout reads from the Master Dictionary: the options of
    the two dropdowns and the initial dates of the date picker. *)
Record Layout : Type := mkLayout {
  srp_num_filter_options : list value;
  scientific_name_filter_options : list value;
  date_filter_start_date : value;
  date_filter_end_date : value
}.

(** The module-level state once the script has been loaded. *)
Record App : Type := mkApp {
  master_df : DataFrame;
  master_gdf : GeoDataFrame;
  layout : Layout
}.

(** [pd.read_excel(master_dict_file)]: the workbook at the path is the
    frame it holds, or nothing when there is no readable file. *)
Definition read_excel (file : option DataFrame) : result DataFrame :=
  match file with
  | Some df => Ok df
  | None => Raise FileNotFoundError
  end.

(** Lines 11-144: the load of the Master Dictionary, the conversion to
    a GeoDataFrame and the construction of the layout. *)
Definition load (master_dict_file : option DataFrame) : result App :=
  master_df <- read_excel master_dict_file ;;
  x <- getitem master_df "Longitude_or_transect_start_longitude" ;;
  y <- getitem master_df "Latitude_or_transect_start_latitude" ;;
  geometry <- points_from_xy x y ;;
  let master_gdf :=
    {| frame := master_df; geometry := geometry; crs := "EPSG:4326" |} in
  srp <- getitem master_df "SRP_Num" ;;
  sci <- getitem master_df "Scientific_Name" ;;
  dates <- getitem master_df "Observation_Date" ;;
  start_date <- Pandas.min dates ;;
  dates' <- getitem master_df "Observation_Date" ;;
  end_date <- Pandas.max dates' ;;
  Ok {| master_df := master_df;
        master_gdf := master_gdf;
        layout := {| srp_num_filter_options := unique srp;
                     scientific_name_filter_options := unique sci;
                     date_filter_start_date := start_date;
                     date_filter_end_date := end_date |} |}.

(** The value of a multi dropdown, and of a date of the date picker. *)
Definition selection (v : option (list value)) : list value :=
  match v with
  | Some l => l
  | None => []
  end.

Definition date_string (v : option string) : string :=
  match v with
  | Some s => s
  | None => EmptyString
  end.

Section Callbacks.

Variable to_datetime : string -> option Z.
Variable format_column : string -> Series -> list string.

(** Lines 159-166 of [update_views]: the filtered frame.  The frame of
    the model does not carry the dtypes of its columns; [filtered_df] is
    a selection of rows of [master_df] and has its dtypes, so the dtype
    of the column compared with the dates is read from [master_df]. *)
Definition update_views_filtered_df (master_df : DataFrame)
    (selected_srp_nums selected_scientific_names : option (list value))
    (start_date end_date : option string) : result DataFrame :=
  let filtered_df := copy master_df in
  filtered_df <-
    (if truthy_list selected_srp_nums then
       s <- getitem filtered_df "SRP_Num" ;;
       Ok (loc filtered_df (isin s (selection selected_srp_nums)))
     else Ok filtered_df) ;;
  filtered_df <-
    (if truthy_list selected_scientific_names then
       s <- getitem filtered_df "Scientific_Name" ;;
       Ok (loc filtered_df (isin s (selection selected_scientific_names)))
     else Ok filtered_df) ;;
  if truthy_str start_date && truthy_str end_date then
    s1 <- getitem filtered_df "Observation_Date" ;;
    m1 <- ge to_datetime (dtype_of master_df "Observation_Date") s1
            (date_string start_date) ;;
    s2 <- getitem filtered_df "Observation_Date" ;;
    m2 <- le to_datetime (dtype_of master_df "Observation_Date") s2
            (date_string end_date) ;;
    Ok (loc filtered_df (mask_and m1 m2))
  else Ok filtered_df.

(** Lines 218-225 of [download_data]: the filtered frame, written a
    second time. *)
Definition download_data_filtered_df (master_df : DataFrame)
    (selected_srp_nums selected_scientific_names : option (list value))
    (start_date end_date : option string) : result DataFrame :=
  let filtered_df := copy master_df in
  filtered_df <-
    (if truthy_list selected_srp_nums then
       s <- getitem filtered_df "SRP_Num" ;;
       Ok (loc filtered_df (isin s (selection selected_srp_nums)))
     else Ok filtered_df) ;;
  filtered_df <-
    (if truthy_list selected_scientific_names then
       s <- getitem filtered_df "Scientific_Name" ;;
       Ok (loc filtered_df (isin s (selection selected_scientific_names)))
     else Ok filtered_df) ;;
  if truthy_str start_date && truthy_str end_date then
    s1 <- getitem filtered_df "Observation_Date" ;;
    m1 <- ge to_datetime (dtype_of master_df "Observation_Date") s1
            (date_string start_date) ;;
    s2 <- getitem filtered_df "Observation_Date" ;;
    m2 <- le to_datetime (dtype_of master_df "Observation_Date") s2
            (date_string end_date) ;;
    Ok (loc filtered_df (mask_and m1 m2))
  else Ok filtered_df.

(** The columns shown in the tooltip of a map point. *)
Definition hover_columns : list string :=
  ["SRP_ID"; "Scientific_Name"; "Common_Name"; "County"; "SRP_Num"].

(** Lines 179-185: the table of the filtered frame. *)
Definition table_of (filtered_df : DataFrame) : component :=
  Table [
    Thead (Tr (map Th (columns filtered_df)));
    Tbody (map (fun row =>
                  Tr (map (fun col => Td (row_get filtered_df row col))
                          (columns filtered_df)))
               (rows filtered_df))
  ].

(** Line 188: the record count. *)
Definition record_count_of (filtered_df : DataFrame) : string :=
  ("Record Count: " ++ str_nat (len filtered_df))%string.

(** Lines 191-200: the statistics table, given the two columns. *)
Definition stats_table_of (srp sci : Series) : component :=
  Table [
    Thead (Tr [Th "Category"; Th "Count"]);
    Tbody [
      Tr [Td (Str "SRP Numbers");
          Td (Num (Z.of_nat (List.length (unique srp))))];
      Tr [Td (Str "Scientific Names");
          Td (Num (Z.of_nat (List.length (unique sci))))]
    ]
  ].

(** The five outputs of [update_views]. *)
Record Views : Type := mkViews {
  spatial_map : Figure;
  table_output : component;
  record_count : string;
  table_record_count : string;
  statistics_output : component
}.

(** Lines 158-202. *)
Definition update_views (master_df : DataFrame)
    (selected_srp_nums selected_scientific_names : option (list value))
    (start_date end_date : option string) : result Views :=
  filtered_df <- update_views_filtered_df master_df selected_srp_nums
                   selected_scientific_names start_date end_date ;;
  fig_map <- scatter_mapbox filtered_df
               "Latitude_or_transect_start_latitude"
               "Longitude_or_transect_start_longitude"
               hover_columns 5 "open-street-map" ;;
  let table := table_of filtered_df in
  let record_count := record_count_of filtered_df in
  srp <- getitem filtered_df "SRP_Num" ;;
  sci <- getitem filtered_df "Scientific_Name" ;;
  let stats_table := stats_table_of srp sci in
  Ok {| spatial_map := fig_map;
        table_output := table;
        record_count := record_count;
        table_record_count := record_count;
        statistics_output := stats_table |}.

(** Lines 213-228. *)
Definition download_data (master_df : DataFrame) (n_clicks : option Z)
    (selected_srp_nums selected_scientific_names : option (list value))
    (start_date end_date : option string) : result (output download) :=
  if negb (truthy_int n_clicks) then Ok no_update
  else
    filtered_df <- download_data_filtered_df master_df selected_srp_nums
                     selected_scientific_names start_date end_date ;;
    Ok (Update (send_data_frame (to_csv format_column filtered_df)
                                "filtered_srp_data.csv")).

End Callbacks.

End Dashboard.

(* ===================================================================== *)
(** ** ISO dates: an instance of the library's date conversions *)
(* ===================================================================== *)

Module Iso.

Local Open Scope Z_scope.

Definition ns_per_second : Z := 1000000000.
Definition ns_per_day : Z := 86400 * ns_per_second.

Definition digit (c : ascii) : option Z :=
  let n := Z.of_nat (nat_of_ascii c) in
  if (48 <=? n) && (n <=? 57) then Some (n - 48) else None.

(** A string of exactly [k] decimal digits. *)
Fixpoint digits (k : nat) (acc : Z) (s : string) : option (Z * string) :=
  match k with
  | O => Some (acc, s)
  | S k' =>
      match s with
      | String c s' =>
          match digit c with
          | Some d => digits k' (10 * acc + d) s'
          | None => None
          end
      | EmptyString => None
      end
  end.

Definition expect (c : ascii) (s : string) : option string :=
  match s with
  | String c' s' => if Ascii.eqb c c' then Some s' else None
  | EmptyString => None
  end.

Definition leap (y : Z) : bool :=
  ((y mod 4 =? 0) && negb (y mod 100 =? 0)) || (y mod 400 =? 0).

Definition days_in_month (y m : Z) : Z :=
  if m =? 2 then (if leap y then 29 else 28)
  else if (m =? 4) || (m =? 6) || (m =? 9) || (m =? 11) then 30
  else 31.

(** Days since 1970-01-01 of a date of the proleptic Gregorian
    calendar. *)
Definition days_from_civil (y m d : Z) : Z :=
  let y' := if m <=? 2 then y - 1 else y in
  let era := y' / 400 in
  let yoe := y' - era * 400 in
  let mp := (m + 9) mod 12 in
  let doy := (153 * mp + 2) / 5 + d - 1 in
  let doe := yoe * 365 + yoe / 4 - yoe / 100 + doy in
  era * 146097 + doe - 719468.

Definition civil_from_days (z : Z) : Z * Z * Z :=
  let z' := z + 719468 in
  let era := z' / 146097 in
  let doe := z' - era * 146097 in
  let yoe := (doe - doe / 1460 + doe / 36524 - doe / 146096) / 365 in
  let doy := doe - (365 * yoe + yoe / 4 - yoe / 100) in
  let mp := (5 * doy + 2) / 153 in
  let d := doy - (153 * mp + 2) / 5 + 1 in
  let m := if mp <? 10 then mp + 3 else mp - 9 in
  let y := yoe + era * 400 in
  ((if m <=? 2 then y + 1 else y), m, d).

Definition time_of_day (s : string) : option Z :=
  match digits 2 0 s with
  | Some (h, s1) =>
      match expect ":" s1 with
      | Some s2 =>
          match digits 2 0 s2 with
          | Some (mi, s3) =>
              match expect ":" s3 with
              | Some s4 =>
                  match digits 2 0 s4 with
                  | Some (sec, EmptyString) =>
                      if (h <? 24) && (mi <? 60) && (sec <? 60)
                      then Some ((h * 3600 + mi * 60 + sec) * ns_per_second)
                      else None
                  | _ => None
                  end
              | None => None
              end
          | None => None
          end
      | None => None
      end
  | None => None
  end.

(** [YYYY-MM-DD], alone or followed by [T] or a space and [HH:MM:SS]:
    the two forms in which the date picker hands over a date. *)
Definition to_datetime (s : string) : option Z :=
  match digits 4 0 s with
  | Some (y, s1) =>
      match expect "-" s1 with
      | Some s2 =>
          match digits 2 0 s2 with
          | Some (m, s3) =>
              match expect "-" s3 with
              | Some s4 =>
                  match digits 2 0 s4 with
                  | Some (d, rest) =>
                      if (1 <=? m) && (m <=? 12) && (1 <=? d)
                         && (d <=? days_in_month y m)
                      then
                        let day := days_from_civil y m d * ns_per_day in
                        match rest with
                        | EmptyString => Some day
                        | String c rest' =>
                            if Ascii.eqb c "T" || Ascii.eqb c " "
                            then option_map (Z.add day) (time_of_day rest')
                            else None
                        end
                      else None
                  | None => None
                  end
              | None => None
              end
          | None => None
          end
      | None => None
      end
  | None => None
  end.

Definition pad (width : nat) (n : Z) : string :=
  let s := str_int n in
  (string_of_list_ascii (repeat "0"%char (width - String.length s)) ++ s)%string.

(** The date of a timestamp, and the date with the time of day. *)
Definition date_text (t : Z) : string :=
  let '(y, m, d) := civil_from_days (t / ns_per_day) in
  (pad 4 y ++ "-" ++ pad 2 m ++ "-" ++ pad 2 d)%string.

Definition datetime_text (t : Z) : string :=
  let r := (t mod ns_per_day) / ns_per_second in
  (date_text t ++ " " ++ pad 2 (r / 3600) ++ ":" ++ pad 2 (r / 60 mod 60)
             ++ ":" ++ pad 2 (r mod 60))%string.

Definition midnight (t : Z) : bool := t mod ns_per_day =? 0.

(** A timestamp written as a date. *)
Definition date (s : string) : Pandas.value :=
  match to_datetime s with
  | Some t => Pandas.Timestamp t
  | None => Pandas.NaT
  end.

End Iso.

(* ===================================================================== *)
(** ** Written columns: an instance of the rendering of pandas *)
(* ===================================================================== *)

Module Render.

Import Pandas.

(** The texts of the cells of a column of a frame selected from
    [master], by the dtype of the column in [master]: the timestamps of
    a datetime column as dates when all are at midnight and with the
    time of day otherwise; the numbers of an integer column as
    integers, those of a float column with their decimal point; the
    cells of an object column each in its own form; a missing value as
    the empty text. *)
Definition format_column (master : DataFrame) (label : string) (s : Series)
    : list string :=
  match dtype_of master label with
  | datetime64_ns =>
      let dates := forallb Iso.midnight (timestamps s) in
      map (fun v => match v with
                    | Timestamp t =>
                        if dates then Iso.date_text t else Iso.datetime_text t
                    | _ => EmptyString
                    end) s
  | int64 =>
      map (fun v => match v with
                    | Num n => str_int n
                    | _ => EmptyString
                    end) s
  | float64 =>
      map (fun v => match v with
                    | Num n => (str_int n ++ ".0")%string
                    | _ => EmptyString
                    end) s
  | object =>
      map (fun v => match v with
                    | Str x => x
                    | Num n => str_int n
                    | Timestamp t => Iso.datetime_text t
                    | NaN | NaT => EmptyString
                    end) s
  end.

End Render.

(* ===================================================================== *)
(** ** The specification of the filter pipeline *)
(* ===================================================================== *)

Module Spec.

Import Pandas.

(** The fields of an observation record that the filter reads. *)
Definition srp_number (df : DataFrame) (record : list value) : value :=
  row_get df record "SRP_Num".

Definition scientific_name (df : DataFrame) (record : list value) : value :=
  row_get df record "Scientific_Name".

Definition observation_date (df : DataFrame) (record : list value) : value :=
  row_get df record "Observation_Date".

(** A filter specification: two selections, where the empty selection
    is no constraint, and an optional date range given by its two
    bounds. *)
Record FilterSpecification : Type := mkFilterSpecification {
  selected_srp_numbers : list value;
  selected_scientific_names : list value;
  date_range : option (Z * Z)
}.

(** Membership in a selection, always true for the empty selection
    (an empty or absent constraint is no constraint). *)
Definition member (v : value) (selected : list value) : bool :=
  match selected with
  | [] => true
  | _ => existsb (value_eqb v) selected
  end.

(** The date within the range, both ends included; always true with
    no range, false for a record with no date when there is a range. *)
Definition within (v : value) (range : option (Z * Z)) : bool :=
  match range with
  | None => true
  | Some (lo, hi) =>
      match v with
      | Timestamp t => Z.leb lo t && Z.leb t hi
      | _ => false
      end
  end.

(** The conjunction of the three predicates. *)
Definition satisfies (df : DataFrame) (spec : FilterSpecification)
    (record : list value) : bool :=
  member (srp_number df record) (selected_srp_numbers spec)
  && member (scientific_name df record) (selected_scientific_names spec)
  && within (observation_date df record) (date_range spec).

(** [apply(records, spec)]: the records that satisfy the conjunction,
    in their order. *)
Definition apply (df : DataFrame) (spec : FilterSpecification) : DataFrame :=
  {| columns := columns df;
     rows := filter (satisfies df spec) (rows df) |}.

(** A record store as the data model has it: the three filtered
    columns are there and every observation date is a date or is
    missing. *)
Definition record_store (df : DataFrame) : bool :=
  has_column df "SRP_Num"
  && has_column df "Scientific_Name"
  && has_column df "Observation_Date"
  && forallb (fun record => is_datetime (observation_date df record)) (rows df).

Definition latitude (df : DataFrame) (record : list value) : value :=
  row_get df record "Latitude_or_transect_start_latitude".

Definition longitude (df : DataFrame) (record : list value) : value :=
  row_get df record "Longitude_or_transect_start_longitude".

Definition value_eq_dec (a b : value) : {a = b} + {a <> b}.
Proof.
  decide equality; solve [apply string_dec | apply Z.eq_dec].
Defined.

(** The number of distinct values occurring in a column. *)
Definition distinct (s : Series) : nat :=
  List.length (nodup value_eq_dec s).

(** The columns that the specification requires of the source file. *)
Definition required_columns : list string :=
  ["SRP_Num"; "Scientific_Name"; "Common_Name"; "County"; "Observation_Date";
   "Latitude_or_transect_start_latitude";
   "Longitude_or_transect_start_longitude"].

(** The columns that the load itself reads. *)
Definition load_columns : list string :=
  ["Longitude_or_transect_start_longitude";
   "Latitude_or_transect_start_latitude";
   "SRP_Num"; "Scientific_Name"; "Observation_Date"].

(** The rows of cells in the body of a table component. *)
Definition cell_of (td : Dash.component) : value :=
  match td with
  | Dash.Td v => v
  | _ => NaN
  end.

Definition cells_of (tr : Dash.component) : list value :=
  match tr with
  | Dash.Tr tds => map cell_of tds
  | _ => []
  end.

Definition table_rows (table : Dash.component) : list (list value) :=
  match table with
  | Dash.Table [_; Dash.Tbody trs] => map cells_of trs
  | _ => []
  end.

(** The header labels of a table component. *)
Definition label_of (th : Dash.component) : string :=
  match th with
  | Dash.Th label => label
  | _ => EmptyString
  end.

Definition table_header (table : Dash.component) : list string :=
  match table with
  | Dash.Table [Dash.Thead (Dash.Tr ths); _] => map label_of ths
  | _ => []
  end.

(** The frame that a table component shows. *)
Definition table_frame (table : Dash.component) : DataFrame :=
  {| columns := table_header table; rows := table_rows table |}.

(** A frame as a workbook gives it: the column labels are distinct and
    every row holds one cell per column. *)
Definition well_formed (df : DataFrame) : Prop :=
  NoDup (columns df)
  /\ Forall (fun record => List.length record = List.length (columns df))
            (rows df).


(** A record that has a date. *)
Definition dated (df : DataFrame) (record : list value) : bool :=
  match observation_date df record with
  | Timestamp _ => true
  | _ => false
  end.

(** The columns that the filter reads for a filter state: one per
    predicate that is set. *)
Definition needed_columns
    (selected_srp_nums selected_scientific_names : option (list value))
    (start_date end_date : option string) : list string :=
  (if truthy_list selected_srp_nums then ["SRP_Num"] else [])
  ++ (if truthy_list selected_scientific_names then ["Scientific_Name"] else [])
  ++ (if truthy_str start_date && truthy_str end_date
      then ["Observation_Date"] else []).

(** The columns that the views read. *)
Definition view_columns : list string :=
  ["Latitude_or_transect_start_latitude";
   "Longitude_or_transect_start_longitude";
   "SRP_ID"; "Scientific_Name"; "Common_Name"; "County"; "SRP_Num"].

Section Arguments.

Variable to_datetime : string -> option Z.

(** The date range that the two dates of the date picker stand for:
    none unless both are given. *)
Definition range_of (start_date end_date : option string)
    : option (option (Z * Z)) :=
  if truthy_str start_date && truthy_str end_date then
    match to_datetime (Dashboard.date_string start_date),
          to_datetime (Dashboard.date_string end_date) with
    | Some lo, Some hi => Some (Some (lo, hi))
    | _, _ => None
    end
  else Some None.

(** The filter specification that the arguments of a callback stand
    for; there is none when a date given is no date. *)
Definition specification
    (selected_srp_nums selected_scientific_names : option (list value))
    (start_date end_date : option string) : option FilterSpecification :=
  match range_of start_date end_date with
  | Some range =>
      Some {| selected_srp_numbers := Dashboard.selection selected_srp_nums;
              selected_scientific_names :=
                Dashboard.selection selected_scientific_names;
              date_range := range |}
  | None => None
  end.

End Arguments.

End Spec.

(* ===================================================================== *)
(** ** Sample data *)
(* ===================================================================== *)

Module Sample.

Import Pandas.

Definition header : list string :=
  ["SRP_ID"; "SRP_Num"; "Scientific_Name"; "Common_Name"; "County";
   "Observation_Date"; "Latitude_or_transect_start_latitude";
   "Longitude_or_transect_start_longitude"; "Notes"].

(** The records A and B of the scenario. *)
Definition A : list value :=
  [Str "SRP-0001"; Num 100; Str "Ursus americanus"; Str "American black bear";
   Str "Brewster"; Iso.date "2023-01-10"; Num 30; Num (-103);
   Str "tracks, scat"].

Definition B : list value :=
  [Str "SRP-0002"; Num 200; Str "Lynx rufus"; Str "Bobcat";
   Str "Travis"; Iso.date "2023-06-01"; Num 30; Num (-97); NaN].

(** A record with no latitude and no date. *)
Definition C : list value :=
  [Str "SRP-0003"; Num 200; Str "Lynx rufus"; Str "Bobcat";
   Str "Hays"; NaT; NaN; Num (-98); NaN].

Definition AB : DataFrame := {| columns := header; rows := [A; B] |}.
Definition ABC : DataFrame := {| columns := header; rows := [A; B; C] |}.

(** The same workbook without its County column. *)
Definition drop_county (row : list value) : list value :=
  firstn 4 row ++ skipn 5 row.

Definition no_county : DataFrame :=
  {| columns := firstn 4 header ++ skipn 5 header;
     rows := map drop_county [A; B; C] |}.

(** A workbook with a carriage return in a cell. *)
Definition carriage_return : DataFrame :=
  {| columns := ["SRP_Num"; "Notes"];
     rows := [[Num 1; Str ("cr" ++ String Csv.CR "here")]] |}.

End Sample.

(* ===================================================================== *)
(** * Theory *)
(* ===================================================================== *)

Import Pandas Geopandas Plotly Dash Dashboard.

(** ** The result monad *)

Lemma bind_ok {A B : Type} (a : A) (k : A -> result B) :
  Py.bind (Ok a) k = k a.
Proof. reflexivity. Qed.

Lemma bind_raise {A B : Type} (e : exception) (k : A -> result B) :
  Py.bind (Raise e) k = Raise e.
Proof. reflexivity. Qed.

(** One step of a computation that must be shown to raise: either this
    step raises, or the computation goes on. *)
Ltac load_step :=
  match goal with
  | |- raises (Py.bind ?m _) =>
      let E := fresh "E" in
      destruct m eqn:E; [rewrite bind_ok | eexists; reflexivity]
  end.

Lemma truthy_list_false {A : Type} (v : option (list A)) :
  truthy_list v = false -> match v with Some l => l | None => [] end = [].
Proof. destruct v as [[|x l]|]; simpl; congruence. Qed.

(** ** Masks and filters *)

Lemma select_rows_map {A : Type} (f : A -> bool) (l : list A) :
  select_rows l (map f l) = filter f l.
Proof.
  induction l as [|x l IH]; simpl; [reflexivity|].
  rewrite IH. reflexivity.
Qed.

Lemma mask_and_map {A : Type} (f g : A -> bool) (l : list A) :
  mask_and (map f l) (map g l) = map (fun x => f x && g x) l.
Proof.
  induction l as [|x l IH]; simpl; [reflexivity|].
  rewrite IH. reflexivity.
Qed.

Lemma filter_filter {A : Type} (f g : A -> bool) (l : list A) :
  filter f (filter g l) = filter (fun x => g x && f x) l.
Proof.
  induction l as [|x l IH]; simpl; [reflexivity|].
  destruct (g x); simpl; [destruct (f x)|]; rewrite IH; reflexivity.
Qed.

Lemma filter_true {A : Type} (l : list A) : filter (fun _ => true) l = l.
Proof. induction l as [|x l IH]; simpl; [|rewrite IH]; reflexivity. Qed.

Lemma forallb_filter {A : Type} (p q : A -> bool) (l : list A) :
  forallb p l = true -> forallb p (filter q l) = true.
Proof.
  induction l as [|x l IH]; simpl; [reflexivity|].
  intros H. apply andb_true_iff in H as [Hx Hl].
  destruct (q x); simpl; [rewrite Hx|]; auto.
Qed.

Lemma forallb_map {A B : Type} (p : B -> bool) (f : A -> B) (l : list A) :
  forallb p (map f l) = forallb (fun x => p (f x)) l.
Proof.
  induction l as [|x l IH]; simpl; [reflexivity|].
  rewrite IH. reflexivity.
Qed.

(** ** Columns *)

Lemma has_column_index (df : DataFrame) (col : string) :
  has_column df col = true -> exists i, index_of col (columns df) = Some i.
Proof.
  unfold has_column. destruct (index_of col (columns df)) as [i|].
  - intros _. exists i. reflexivity.
  - discriminate.
Qed.

Lemma getitem_index (df : DataFrame) (col : string) (i : nat) :
  index_of col (columns df) = Some i ->
  getitem df col = Ok (map (fun row => row_get df row col) (rows df)).
Proof.
  intros H. unfold getitem, row_get. rewrite H. reflexivity.
Qed.

Lemma getitem_has_column (df : DataFrame) (col : string) :
  has_column df col = true ->
  getitem df col = Ok (map (fun row => row_get df row col) (rows df)).
Proof.
  intros H. destruct (has_column_index df col H) as [i Hi].
  exact (getitem_index df col i Hi).
Qed.

Lemma getitem_no_column (df : DataFrame) (col : string) :
  has_column df col = false -> getitem df col = Raise (KeyError col).
Proof.
  unfold has_column, getitem.
  destruct (index_of col (columns df)); [discriminate | reflexivity].
Qed.

Lemma frame_eta (df : DataFrame) :
  {| columns := columns df; rows := rows df |} = df.
Proof. destruct df; reflexivity. Qed.

(** ** The stages of the filter *)

(** A membership stage keeps the rows whose cell is in the selection,
    and all rows when nothing is selected. *)
Lemma isin_stage (df : DataFrame) (col : string) (sel : option (list value)) :
  has_column df col = true ->
  (if truthy_list sel then
     s <- getitem df col ;; Ok (loc df (isin s (selection sel)))
   else Ok df)
  = Ok {| columns := columns df;
          rows := filter (fun row => Spec.member (row_get df row col)
                                                 (selection sel))
                         (rows df) |}.
Proof.
  intros Hcol. destruct (truthy_list sel) eqn:Hsel.
  - rewrite (getitem_has_column df col Hcol), bind_ok.
    unfold loc, isin. rewrite map_map, select_rows_map.
    destruct sel as [[|x l]|]; try discriminate. reflexivity.
  - unfold selection. rewrite (truthy_list_false sel Hsel). simpl.
    rewrite filter_true, frame_eta. reflexivity.
Qed.

Lemma infer_datetime (s : Series) :
  s <> [] -> forallb is_datetime s = true -> infer s = datetime64_ns.
Proof.
  intros Hne Hs. unfold infer. destruct s as [|v s]; [congruence|].
  rewrite Hs. reflexivity.
Qed.

(** On a record store with at least one record the date column is a
    datetime column; with no record it is an object column. *)
Lemma dtype_of_record_store (df : DataFrame) :
  has_column df "Observation_Date" = true ->
  forallb (fun row => is_datetime (Spec.observation_date df row)) (rows df)
    = true ->
  rows df <> [] ->
  dtype_of df "Observation_Date" = datetime64_ns.
Proof.
  intros Hcol Hdates Hne. unfold dtype_of.
  rewrite (getitem_has_column df _ Hcol). apply infer_datetime.
  - destruct (rows df); [congruence | discriminate].
  - rewrite forallb_map. exact Hdates.
Qed.

Lemma dtype_of_no_row (df : DataFrame) (col : string) :
  rows df = [] -> dtype_of df col = object.
Proof.
  intros Hrows. unfold dtype_of, getitem. rewrite Hrows.
  destruct (index_of col (columns df)); reflexivity.
Qed.

Section FilterStages.

Variable to_datetime : string -> option Z.

Lemma ge_datetime (s : Series) (other : string) (b : Z) :
  to_datetime other = Some b ->
  ge to_datetime datetime64_ns s other
  = Ok (map (fun v => match v with Timestamp t => Z.leb b t | _ => false end) s).
Proof. intros Hb. unfold ge. rewrite Hb. reflexivity. Qed.

Lemma le_datetime (s : Series) (other : string) (b : Z) :
  to_datetime other = Some b ->
  le to_datetime datetime64_ns s other
  = Ok (map (fun v => match v with Timestamp t => Z.leb t b | _ => false end) s).
Proof. intros Hb. unfold le. rewrite Hb. reflexivity. Qed.

(** The date stage, on a selection [selected] of the rows of a record
    store [df], keeps the rows whose date lies within the two bounds,
    and all rows unless both bounds are given. *)
Lemma date_stage (df : DataFrame) (selected : list (list value))
    (start_date end_date : option string) (range : option (Z * Z)) :
  has_column df "Observation_Date" = true ->
  forallb (fun row => is_datetime (Spec.observation_date df row)) (rows df)
    = true ->
  (rows df = [] -> selected = []) ->
  Spec.range_of to_datetime start_date end_date = Some range ->
  (if truthy_str start_date && truthy_str end_date then
     s1 <- getitem {| columns := columns df; rows := selected |}
             "Observation_Date" ;;
     m1 <- ge to_datetime (dtype_of df "Observation_Date") s1
             (date_string start_date) ;;
     s2 <- getitem {| columns := columns df; rows := selected |}
             "Observation_Date" ;;
     m2 <- le to_datetime (dtype_of df "Observation_Date") s2
             (date_string end_date) ;;
     Ok (loc {| columns := columns df; rows := selected |} (mask_and m1 m2))
   else Ok {| columns := columns df; rows := selected |})
  = Ok {| columns := columns df;
          rows := filter (fun row => Spec.within (Spec.observation_date df row)
                                                 range)
                         selected |}.
Proof.
  intros Hcol Hdates Hsel Hrange. unfold Spec.range_of in Hrange.
  destruct (truthy_str start_date && truthy_str end_date).
  - destruct (to_datetime (date_string start_date)) as [lo|] eqn:Hlo;
      [|discriminate].
    destruct (to_datetime (date_string end_date)) as [hi|] eqn:Hhi;
      [|discriminate].
    injection Hrange as <-.
    rewrite (getitem_has_column {| columns := columns df; rows := selected |}
               "Observation_Date" Hcol), bind_ok.
    cbn [rows]. destruct (rows df) as [|r rs] eqn:Hrows.
    + rewrite (Hsel eq_refl). rewrite (dtype_of_no_row df _ Hrows).
      reflexivity.
    + rewrite (dtype_of_record_store df Hcol); [| | congruence].
      2:{ rewrite Hrows. exact Hdates. }
      rewrite (ge_datetime _ _ _ Hlo), bind_ok, bind_ok.
      rewrite (le_datetime _ _ _ Hhi), bind_ok.
      unfold loc. cbn [columns rows].
      rewrite !map_map, mask_and_map, select_rows_map.
      f_equal. f_equal. apply filter_ext. intros row.
      unfold Spec.within, Spec.observation_date, row_get. cbn [columns].
      destruct (match index_of "Observation_Date" (columns df) with
                | Some i => cell_at i row
                | None => NaN
                end); reflexivity.
  - injection Hrange as <-. simpl. rewrite filter_true. reflexivity.
Qed.

(** The three stages in sequence are one filter by the conjunction. *)
Lemma filtered_df_apply (df : DataFrame)
    (selected_srp_nums selected_scientific_names : option (list value))
    (start_date end_date : option string) (spec : Spec.FilterSpecification) :
  Spec.record_store df = true ->
  Spec.specification to_datetime selected_srp_nums selected_scientific_names
    start_date end_date = Some spec ->
  update_views_filtered_df to_datetime df selected_srp_nums
    selected_scientific_names start_date end_date
  = Ok (Spec.apply df spec).
Proof.
  intros Hstore Hspec. unfold Spec.record_store in Hstore.
  apply andb_true_iff in Hstore as [Hstore Hdates].
  apply andb_true_iff in Hstore as [Hstore Hdate].
  apply andb_true_iff in Hstore as [Hsrp Hsci].
  unfold Spec.specification in Hspec.
  destruct (Spec.range_of to_datetime start_date end_date) as [range|] eqn:Hrange;
    [|discriminate].
  injection Hspec as <-.
  unfold update_views_filtered_df, copy.
  rewrite (isin_stage df "SRP_Num" selected_srp_nums Hsrp), bind_ok.
  rewrite isin_stage by exact Hsci. rewrite bind_ok.
  cbn [columns rows].
  rewrite (date_stage df _ start_date end_date range Hdate Hdates); cycle 1.
  - intros Hrows. rewrite Hrows. reflexivity.
  - exact Hrange.
  - unfold Spec.apply. rewrite !filter_filter.
    f_equal. f_equal. apply filter_ext. intros record.
    unfold Spec.satisfies. rewrite andb_assoc. reflexivity.
Qed.

End FilterStages.

(** ** Distinct values *)

Lemma value_eqb_eq (a b : value) : value_eqb a b = true <-> a = b.
Proof.
  destruct a, b; simpl; split; intros H;
    try reflexivity; try discriminate.
  - apply String.eqb_eq in H. congruence.
  - injection H as ->. apply String.eqb_refl.
  - apply Z.eqb_eq in H. congruence.
  - injection H as ->. apply Z.eqb_refl.
  - apply Z.eqb_eq in H. congruence.
  - injection H as ->. apply Z.eqb_refl.
Qed.

Lemma value_eqb_neq (a b : value) : negb (value_eqb a b) = true <-> a <> b.
Proof.
  rewrite negb_true_iff. split.
  - intros H Heq. apply value_eqb_eq in Heq. congruence.
  - intros H. destruct (value_eqb a b) eqn:E; [|reflexivity].
    apply value_eqb_eq in E. contradiction.
Qed.

Lemma unique_In (s : Series) (x : value) : In x (unique s) <-> In x s.
Proof.
  induction s as [|v s IH]; simpl; [tauto|].
  rewrite filter_In, value_eqb_neq, IH.
  destruct (Spec.value_eq_dec v x) as [->|Hne]; [tauto|].
  split; [tauto|]. intros [H|H]; [tauto|]. right. split; congruence.
Qed.

Lemma unique_NoDup (s : Series) : NoDup (unique s).
Proof.
  induction s as [|v s IH]; simpl; constructor.
  - rewrite filter_In, value_eqb_neq. tauto.
  - apply NoDup_filter. exact IH.
Qed.

(** [unique] counts the distinct values. *)
Lemma unique_distinct (s : Series) :
  List.length (unique s) = Spec.distinct s.
Proof.
  unfold Spec.distinct. apply Nat.le_antisymm.
  - apply NoDup_incl_length; [apply unique_NoDup|].
    intros x Hx. apply nodup_In. apply unique_In. exact Hx.
  - apply NoDup_incl_length; [apply NoDup_nodup|].
    intros x Hx. apply unique_In. apply nodup_In in Hx. exact Hx.
Qed.

(** ** The views *)

Lemma combine_map {A B C : Type} (f : A -> B) (g : A -> C) (l : list A) :
  combine (map f l) (map g l) = map (fun x => (f x, g x)) l.
Proof.
  induction l as [|x l IH]; simpl; [reflexivity|].
  rewrite IH. reflexivity.
Qed.

Lemma column_has_column (df : DataFrame) (name : string) :
  has_column df name = true ->
  Plotly.column df name = Ok (map (fun row => row_get df row name) (rows df)).
Proof.
  intros H. unfold Plotly.column. rewrite (getitem_has_column df name H).
  reflexivity.
Qed.

Lemma column_no_column (df : DataFrame) (name : string) :
  has_column df name = false -> Plotly.column df name = Raise ValueError.
Proof.
  intros H. unfold Plotly.column. rewrite (getitem_no_column df name H).
  reflexivity.
Qed.

Lemma check_columns_ok (df : DataFrame) (names : list string) :
  forallb (has_column df) names = true -> check_columns df names = Ok tt.
Proof.
  induction names as [|n names IH]; simpl; [reflexivity|].
  intros H. apply andb_true_iff in H as [Hn Hnames].
  rewrite (column_has_column df n Hn), bind_ok. exact (IH Hnames).
Qed.

Lemma check_columns_missing (df : DataFrame) (names : list string) (col : string) :
  In col names -> has_column df col = false ->
  check_columns df names = Raise ValueError.
Proof.
  induction names as [|n names IH]; simpl; [tauto|].
  intros [->|Hin] Hcol.
  - rewrite (column_no_column df col Hcol). reflexivity.
  - destruct (has_column df n) eqn:Hn.
    + rewrite (column_has_column df n Hn), bind_ok. exact (IH Hin Hcol).
    + rewrite (column_no_column df n Hn). reflexivity.
Qed.

(** The figure of a frame that has the columns named in the call. *)
Lemma scatter_mapbox_ok (df : DataFrame) :
  forallb (has_column df) Spec.view_columns = true ->
  scatter_mapbox df "Latitude_or_transect_start_latitude"
    "Longitude_or_transect_start_longitude" hover_columns 5 "open-street-map"
  = Ok {| Plotly.lat := map (Spec.latitude df) (rows df);
          Plotly.lon := map (Spec.longitude df) (rows df);
          Plotly.hover_data := hover_columns;
          Plotly.customdata :=
            map (fun row => map (row_get df row) hover_columns) (rows df);
          Plotly.zoom := 5;
          Plotly.mapbox_style := "open-street-map" |}.
Proof.
  intros Hcols. simpl in Hcols.
  repeat (apply andb_true_iff in Hcols as [?H Hcols]).
  unfold scatter_mapbox.
  rewrite !column_has_column by assumption. rewrite !bind_ok.
  rewrite check_columns_ok by (simpl; repeat (apply andb_true_iff; split); auto).
  rewrite bind_ok. reflexivity.
Qed.

(** The figure holds one entry per record. *)
Lemma scatter_mapbox_length (df : DataFrame) (fig : Figure) :
  scatter_mapbox df "Latitude_or_transect_start_latitude"
    "Longitude_or_transect_start_longitude" hover_columns 5 "open-street-map"
  = Ok fig ->
  List.length (lat fig) = len df.
Proof.
  unfold scatter_mapbox. intros H.
  destruct (Plotly.column df "Latitude_or_transect_start_latitude") as [la|]
    eqn:Hla; [|discriminate].
  rewrite bind_ok in H.
  destruct (Plotly.column df "Longitude_or_transect_start_longitude");
    [|discriminate].
  rewrite bind_ok in H.
  destruct (check_columns df hover_columns); [|discriminate].
  rewrite bind_ok in H. injection H as <-. cbn [lat].
  unfold Plotly.column, getitem in Hla.
  destruct (index_of _ (columns df)); [|discriminate].
  injection Hla as <-. apply length_map.
Qed.

Section Views.

Variable to_datetime : string -> option Z.

(** Filtering keeps the columns of the frame. *)
Lemma filtered_df_columns (df fd : DataFrame)
    (selected_srp_nums selected_scientific_names : option (list value))
    (start_date end_date : option string) :
  update_views_filtered_df to_datetime df selected_srp_nums
    selected_scientific_names start_date end_date = Ok fd ->
  columns fd = columns df.
Proof.
  unfold update_views_filtered_df, copy. intros H.
  set (f1 := if truthy_list selected_srp_nums then _ else _) in H.
  assert (H1 : forall d, f1 = Ok d -> columns d = columns df).
  { subst f1. intros d. destruct (truthy_list selected_srp_nums).
    - destruct (getitem df "SRP_Num"); simpl; [|discriminate].
      intros [= <-]. reflexivity.
    - intros [= <-]. reflexivity. }
  destruct f1 as [d1|]; [|discriminate]. rewrite bind_ok in H.
  specialize (H1 d1 eq_refl).
  set (f2 := if truthy_list selected_scientific_names then _ else _) in H.
  assert (H2 : forall d, f2 = Ok d -> columns d = columns d1).
  { subst f2. intros d. destruct (truthy_list selected_scientific_names).
    - destruct (getitem d1 "Scientific_Name"); simpl; [|discriminate].
      intros [= <-]. reflexivity.
    - intros [= <-]. reflexivity. }
  destruct f2 as [d2|]; [|discriminate]. rewrite bind_ok in H.
  specialize (H2 d2 eq_refl).
  destruct (truthy_str start_date && truthy_str end_date).
  - destruct (getitem d2 "Observation_Date") as [s|]; [|discriminate].
    cbn [Py.bind] in H.
    destruct (ge to_datetime _ s (date_string start_date)); [|discriminate].
    cbn [Py.bind] in H.
    destruct (le to_datetime _ s (date_string end_date)); [|discriminate].
    cbn [Py.bind] in H. injection H as <-. simpl. congruence.
  - injection H as <-. congruence.
Qed.

Lemma has_column_columns (df fd : DataFrame) (col : string) :
  columns fd = columns df -> has_column fd col = has_column df col.
Proof. intros H. unfold has_column. rewrite H. reflexivity. Qed.

(** The views of a frame that has the columns they read. *)
Lemma update_views_ok (df fd : DataFrame)
    (selected_srp_nums selected_scientific_names : option (list value))
    (start_date end_date : option string) :
  update_views_filtered_df to_datetime df selected_srp_nums
    selected_scientific_names start_date end_date = Ok fd ->
  forallb (has_column df) Spec.view_columns = true ->
  exists fig,
    scatter_mapbox fd "Latitude_or_transect_start_latitude"
      "Longitude_or_transect_start_longitude" hover_columns 5 "open-street-map"
    = Ok fig
    /\ update_views to_datetime df selected_srp_nums
         selected_scientific_names start_date end_date
       = Ok {| spatial_map := fig;
               table_output := table_of fd;
               record_count := record_count_of fd;
               table_record_count := record_count_of fd;
               statistics_output :=
                 stats_table_of (map (Spec.srp_number fd) (rows fd))
                                (map (Spec.scientific_name fd) (rows fd)) |}.
Proof.
  intros Hfd Hcols. pose proof (filtered_df_columns _ _ _ _ _ _ Hfd) as Heq.
  assert (Hcols' : forallb (has_column fd) Spec.view_columns = true).
  { simpl in Hcols |- *. rewrite !(has_column_columns df fd _ Heq).
    exact Hcols. }
  clear Hcols. unfold update_views. rewrite Hfd, bind_ok.
  simpl in Hcols'. repeat (apply andb_true_iff in Hcols' as [?H Hcols']).
  unfold scatter_mapbox.
  rewrite !column_has_column by assumption. rewrite !bind_ok.
  rewrite check_columns_ok by (simpl; repeat (apply andb_true_iff; split); auto).
  rewrite !bind_ok. eexists. split; [reflexivity|].
  rewrite !getitem_has_column by assumption. rewrite !bind_ok. reflexivity.
Qed.

End Views.

(** ** The csv writer and reader *)

Module CsvTheory.

Import Csv.

Lemma append_nil_r (s : string) : (s ++ EmptyString)%string = s.
Proof. induction s as [|c s IH]; simpl; [|rewrite IH]; reflexivity. Qed.

Lemma append_assoc (a b c : string) :
  ((a ++ b) ++ c)%string = (a ++ (b ++ c))%string.
Proof. induction a as [|x a IH]; simpl; [|rewrite IH]; reflexivity. Qed.

Lemma snoc_append (cur : string) (c : ascii) (s : string) :
  (snoc cur c ++ s)%string = (cur ++ String c s)%string.
Proof. unfold snoc. rewrite append_assoc. reflexivity. Qed.

Lemma special_false (c : ascii) :
  special c = false ->
  Ascii.eqb c comma = false /\ Ascii.eqb c dquote = false
  /\ Ascii.eqb c LF = false.
Proof.
  unfold special. intros H.
  apply orb_false_iff in H as [H HLF].
  apply orb_false_iff in H as [Hcomma Hquote].
  auto.
Qed.

(** A field that is written without quotes and has no bare carriage
    return has no carriage return at all. *)
Lemma plain_no_CR (f : string) :
  needs_quote f = false -> bare_CR f = false -> holds_CR f = false.
Proof.
  unfold bare_CR. intros Hq H. rewrite Hq in H.
  destruct (holds_CR f); [discriminate | reflexivity].
Qed.

(** Reading the inside of a quoted field up to its closing quote
    gives the field back, line breaks included. *)
Lemma read_escape (f : string) :
  forall done fields cur rest,
    read InQuoted done fields cur (escape f ++ String dquote rest)
    = read QuoteInQuoted done fields (cur ++ f) rest.
Proof.
  induction f as [|c f IH]; intros done fields cur rest.
  - simpl. rewrite append_nil_r. reflexivity.
  - cbn [escape]. destruct (Ascii.eqb c dquote) eqn:Hc.
    + apply Ascii.eqb_eq in Hc. subst c.
      cbn [append read]. rewrite Ascii.eqb_refl.
      rewrite IH, snoc_append. reflexivity.
    + cbn [append read]. rewrite Hc.
      rewrite IH, snoc_append. reflexivity.
Qed.

(** Reading the rest of a field written without quotes. *)
Lemma read_plain (f : string) :
  forall done fields cur rest,
    needs_quote f = false ->
    holds_CR f = false ->
    read InField done fields cur (f ++ rest)
    = read InField done fields (cur ++ f) rest.
Proof.
  induction f as [|c f IH]; intros done fields cur rest Hf Hcr.
  - simpl. rewrite append_nil_r. reflexivity.
  - cbn [needs_quote] in Hf. apply orb_false_iff in Hf as [Hc Hf].
    cbn [holds_CR] in Hcr. apply orb_false_iff in Hcr as [HCR Hcr].
    destruct (special_false c Hc) as (Hcomma & Hquote & HLF).
    cbn [append read]. rewrite HLF, HCR, Hcomma.
    rewrite (IH _ _ _ _ Hf Hcr), snoc_append. reflexivity.
Qed.

(** The first character of a field written without quotes. *)
Lemma read_first (m : mode) (c : ascii) (f : string) :
  forall done fields rest,
    starting m ->
    needs_quote (String c f) = false ->
    holds_CR (String c f) = false ->
    read m done fields EmptyString (String c f ++ rest)
    = read InField done fields (String c f) rest.
Proof.
  intros done fields rest Hm Hq Hcr.
  cbn [needs_quote] in Hq. apply orb_false_iff in Hq as [Hc Hf].
  cbn [holds_CR] in Hcr. apply orb_false_iff in Hcr as [HCR Hcr].
  destruct (special_false c Hc) as (Hcomma & Hquote & HLF).
  cbn [append].
  assert (H : read m done fields EmptyString (String c (f ++ rest))
              = read InField done fields (String c EmptyString) (f ++ rest)).
  { destruct Hm as [-> | ->]; cbn [read];
      rewrite HLF, HCR, Hquote, Hcomma; reflexivity. }
  rewrite H, (read_plain _ _ _ _ _ Hf Hcr). reflexivity.
Qed.

(** The opening quote of a quoted field. *)
Lemma read_open_quote (m : mode) (s : string) :
  forall done fields,
    starting m ->
    read m done fields EmptyString (String dquote s)
    = read InQuoted done fields EmptyString s.
Proof. intros done fields [-> | ->]; reflexivity. Qed.

(** A field followed by a comma. *)
Lemma read_field_comma (m : mode) (f : string) :
  forall done fields rest,
    starting m ->
    bare_CR f = false ->
    read m done fields EmptyString (write_field f ++ String comma rest)
    = read StartField done (fields ++ [f]) EmptyString rest.
Proof.
  intros done fields rest Hm Hcr. unfold write_field.
  destruct (needs_quote f) eqn:Hq.
  - cbn [append]. rewrite append_assoc. cbn [append].
    rewrite (read_open_quote m _ _ _ Hm), read_escape. reflexivity.
  - destruct f as [|c f].
    + destruct Hm as [-> | ->]; reflexivity.
    + rewrite (read_first m c f _ _ _ Hm Hq (plain_no_CR _ Hq Hcr)).
      reflexivity.
Qed.

(** A field followed by the end of the line. *)
Lemma read_field_LF (m : mode) (f : string) :
  forall done fields rest,
    m = StartField \/ (m = StartRecord /\ f <> EmptyString) ->
    bare_CR f = false ->
    read m done fields EmptyString (write_field f ++ String LF rest)
    = read StartRecord (done ++ [fields ++ [f]]) [] EmptyString rest.
Proof.
  intros done fields rest Hm Hcr.
  assert (Hst : starting m) by (destruct Hm as [-> | [-> _]];
                                [right | left]; reflexivity).
  unfold write_field. destruct (needs_quote f) eqn:Hq.
  - cbn [append]. rewrite append_assoc. cbn [append].
    rewrite (read_open_quote m _ _ _ Hst), read_escape. reflexivity.
  - destruct f as [|c f].
    + destruct Hm as [-> | [_ Hf]]; [reflexivity | congruence].
    + rewrite (read_first m c f _ _ _ Hst Hq (plain_no_CR _ Hq Hcr)).
      reflexivity.
Qed.

(** The fields of a record after its first. *)
Lemma read_join_fields (fs : list string) :
  forall done acc rest,
    fs <> [] ->
    forallb (fun f => negb (bare_CR f)) fs = true ->
    read StartField done acc EmptyString (join_fields fs ++ String LF rest)
    = read StartRecord (done ++ [acc ++ fs]) [] EmptyString rest.
Proof.
  induction fs as [|f fs IH]; intros done acc rest Hne Hcr; [congruence|].
  cbn [forallb] in Hcr. apply andb_true_iff in Hcr as [Hf Hfs].
  apply negb_true_iff in Hf.
  destruct fs as [|g fs].
  - cbn [join_fields]. apply read_field_LF; [left; reflexivity | exact Hf].
  - change (join_fields (f :: g :: fs))
      with (write_field f ++ String comma (join_fields (g :: fs)))%string.
    rewrite append_assoc. cbn [append].
    rewrite read_field_comma by (first [right; reflexivity | exact Hf]).
    rewrite IH by (first [discriminate | exact Hfs]).
    rewrite <- app_assoc. reflexivity.
Qed.

(** A record is read back as it was written. *)
Lemma read_writerow (fs : list string) :
  forall done rest,
    forallb (fun f => negb (bare_CR f)) fs = true ->
    read StartRecord done [] EmptyString (writerow fs ++ rest)
    = read StartRecord (done ++ [fs]) [] EmptyString rest.
Proof.
  intros done rest Hcr. destruct fs as [|f fs]; [reflexivity|].
  cbn [forallb] in Hcr. apply andb_true_iff in Hcr as [Hf Hfs].
  apply negb_true_iff in Hf.
  destruct fs as [|g fs].
  - destruct f as [|c f]; [reflexivity|].
    unfold writerow. rewrite append_assoc. cbn [join_fields].
    change (String LF EmptyString ++ rest)%string with (String LF rest).
    rewrite read_field_LF;
      [reflexivity | right; split; [reflexivity | discriminate] | exact Hf].
  - assert (H : (writerow (f :: g :: fs) ++ rest)%string
                = (write_field f
                   ++ String comma (join_fields (g :: fs) ++ String LF rest))%string).
    { unfold writerow.
      change (join_fields (f :: g :: fs))
        with (write_field f ++ String comma (join_fields (g :: fs)))%string.
      destruct f; rewrite !append_assoc; reflexivity. }
    rewrite H, read_field_comma by (first [left; reflexivity | exact Hf]).
    rewrite read_join_fields by (first [discriminate | exact Hfs]).
    reflexivity.
Qed.

Lemma read_writerows (records : list (list string)) :
  forall done,
    no_bare_CR records = true ->
    read StartRecord done [] EmptyString (writerows records) = done ++ records.
Proof.
  induction records as [|r records IH]; intros done Hcr.
  - simpl. rewrite app_nil_r. reflexivity.
  - unfold no_bare_CR in Hcr. cbn [forallb] in Hcr.
    apply andb_true_iff in Hcr as [Hr Hrs].
    cbn [writerows]. rewrite (read_writerow r _ _ Hr), (IH _ Hrs), <- app_assoc.
    reflexivity.
Qed.

(** The reader gives back the records that the writer wrote, when no
    field has a carriage return left unquoted. *)
Lemma reader_writerows (records : list (list string)) :
  no_bare_CR records = true ->
  reader (writerows records) = records.
Proof. intros Hcr. unfold reader. apply (read_writerows records [] Hcr). Qed.

End CsvTheory.

(* ===================================================================== *)
(** * The claims *)
(* ===================================================================== *)

Lemma filter_none {A : Type} (f : A -> bool) (l : list A) :
  (forall x, f x = false) -> filter f l = [].
Proof.
  intros H. induction l as [|x l IH]; simpl; [reflexivity|].
  rewrite H. exact IH.
Qed.

(** C1.  For a record store and the filter specification that the
    arguments of the callback stand for, the filter of [update_views]
    returns exactly the records that satisfy the conjunction of the three
    predicates (membership of the SRP number in a non-empty selection,
    membership of the scientific name in a non-empty selection, the date
    within the range when both bounds are given), in the order they have
    in the input. *)
Theorem filter_pipeline_conjunction :
  forall (to_datetime : string -> option Z) (df : DataFrame)
         (selected_srp_nums selected_scientific_names : option (list value))
         (start_date end_date : option string)
         (spec : Spec.FilterSpecification),
    Spec.record_store df = true ->
    Spec.specification to_datetime selected_srp_nums selected_scientific_names
      start_date end_date = Some spec ->
    update_views_filtered_df to_datetime df selected_srp_nums
      selected_scientific_names start_date end_date
    = Ok (Spec.apply df spec)
    /\ rows (Spec.apply df spec) = filter (Spec.satisfies df spec) (rows df)
    /\ (forall record,
          In record (rows (Spec.apply df spec))
          <-> In record (rows df)
              /\ Spec.member (Spec.srp_number df record)
                             (Spec.selected_srp_numbers spec) = true
              /\ Spec.member (Spec.scientific_name df record)
                             (Spec.selected_scientific_names spec) = true
              /\ Spec.within (Spec.observation_date df record)
                             (Spec.date_range spec) = true).
Proof.
  intros to_datetime df a b s e spec Hstore Hspec. split; [|split].
  - exact (filtered_df_apply to_datetime df a b s e spec Hstore Hspec).
  - reflexivity.
  - intros record. cbn [Spec.apply rows]. rewrite filter_In.
    unfold Spec.satisfies. rewrite !andb_true_iff. tauto.
Qed.

Lemma filter_pipeline_conjunction_witness :
  Spec.record_store Sample.ABC = true
  /\ update_views_filtered_df Iso.to_datetime Sample.ABC
       (Some [Num 200]) (Some [Str "Lynx rufus"; Str "Ursus americanus"])
       (Some "2023-01-01") (Some "2023-12-31")
     = Ok {| columns := Sample.header; rows := [Sample.B] |}.
Proof.
  split; [reflexivity|].
  exact (proj1 (filter_pipeline_conjunction Iso.to_datetime Sample.ABC
                  (Some [Num 200])
                  (Some [Str "Lynx rufus"; Str "Ursus americanus"])
                  (Some "2023-01-01") (Some "2023-12-31")
                  {| Spec.selected_srp_numbers := [Num 200];
                     Spec.selected_scientific_names :=
                       [Str "Lynx rufus"; Str "Ursus americanus"];
                     Spec.date_range :=
                       Some (1672531200000000000, 1703980800000000000)%Z |}
                  eq_refl eq_refl)).
Defined.

(** C2.  With nothing selected in either dropdown and no date given, the
    filter returns the input frame itself: same records, same order. *)
Theorem filter_identity :
  forall (to_datetime : string -> option Z) (df : DataFrame)
         (selected_srp_nums selected_scientific_names : option (list value))
         (start_date end_date : option string),
    truthy_list selected_srp_nums = false ->
    truthy_list selected_scientific_names = false ->
    truthy_str start_date = false ->
    truthy_str end_date = false ->
    update_views_filtered_df to_datetime df selected_srp_nums
      selected_scientific_names start_date end_date
    = Ok df.
Proof.
  intros to_datetime df a b s e Ha Hb Hs He.
  unfold update_views_filtered_df, copy.
  rewrite Ha, Hb, Hs. reflexivity.
Qed.

Lemma filter_identity_witness :
  update_views_filtered_df Iso.to_datetime Sample.ABC None (Some []) None
    (Some EmptyString)
  = Ok Sample.ABC.
Proof.
  apply (filter_identity Iso.to_datetime Sample.ABC None (Some []) None
           (Some EmptyString)); reflexivity.
Defined.

Section DateRange.

Variable to_datetime : string -> option Z.

Lemma range_of_active (start_date end_date : option string) (lo hi : Z) :
  truthy_str start_date && truthy_str end_date = true ->
  to_datetime (date_string start_date) = Some lo ->
  to_datetime (date_string end_date) = Some hi ->
  Spec.range_of to_datetime start_date end_date = Some (Some (lo, hi)).
Proof.
  intros Hact Hlo Hhi. unfold Spec.range_of. rewrite Hact, Hlo, Hhi.
  reflexivity.
Qed.

Lemma range_of_inactive (start_date end_date : option string) :
  truthy_str start_date && truthy_str end_date = false ->
  Spec.range_of to_datetime start_date end_date = Some None.
Proof. intros Hact. unfold Spec.range_of. rewrite Hact. reflexivity. Qed.

(** Without both bounds the filter is the filter with no date at all. *)
Lemma filtered_df_inactive (df : DataFrame)
    (selected_srp_nums selected_scientific_names : option (list value))
    (start_date end_date : option string) :
  truthy_str start_date && truthy_str end_date = false ->
  update_views_filtered_df to_datetime df selected_srp_nums
    selected_scientific_names start_date end_date
  = update_views_filtered_df to_datetime df selected_srp_nums
      selected_scientific_names None None.
Proof.
  intros Hact. unfold update_views_filtered_df. rewrite Hact. reflexivity.
Qed.

(** With both bounds the filter keeps, of the records selected by the
    two dropdowns, those dated within the bounds. *)
Lemma filtered_df_active (df : DataFrame)
    (selected_srp_nums selected_scientific_names : option (list value))
    (start_date end_date : option string) (lo hi : Z) :
  Spec.record_store df = true ->
  truthy_str start_date && truthy_str end_date = true ->
  to_datetime (date_string start_date) = Some lo ->
  to_datetime (date_string end_date) = Some hi ->
  exists base,
    update_views_filtered_df to_datetime df selected_srp_nums
      selected_scientific_names None None = Ok base
    /\ update_views_filtered_df to_datetime df selected_srp_nums
         selected_scientific_names start_date end_date
       = Ok {| columns := columns base;
               rows := filter (fun record =>
                                 match Spec.observation_date df record with
                                 | Timestamp t => Z.leb lo t && Z.leb t hi
                                 | _ => false
                                 end)
                              (rows base) |}.
Proof.
  intros Hstore Hact Hlo Hhi.
  exists (Spec.apply df
            {| Spec.selected_srp_numbers := selection selected_srp_nums;
               Spec.selected_scientific_names :=
                 selection selected_scientific_names;
               Spec.date_range := None |}).
  split.
  - apply filtered_df_apply; [exact Hstore | reflexivity].
  - rewrite (filtered_df_apply to_datetime df _ _ _ _
               {| Spec.selected_srp_numbers := selection selected_srp_nums;
                  Spec.selected_scientific_names :=
                    selection selected_scientific_names;
                  Spec.date_range := Some (lo, hi) |} Hstore).
    + unfold Spec.apply. cbn [columns rows]. rewrite filter_filter.
      f_equal. f_equal. apply filter_ext. intros record.
      unfold Spec.satisfies. cbn [Spec.selected_srp_numbers
        Spec.selected_scientific_names Spec.date_range Spec.within].
      rewrite andb_true_r. reflexivity.
    + unfold Spec.specification.
      rewrite (range_of_active _ _ lo hi Hact Hlo Hhi). reflexivity.
Qed.

End DateRange.

(** C3.  The date predicate is applied exactly when both bounds are
    given.  With a bound missing the filter is the filter with no date at
    all, so a record with no date is kept or dropped by the two
    dropdowns alone.  With both bounds, on a record store, the filter
    keeps, of the records that the two dropdowns select, those whose
    date is a timestamp [t] with [lo <= t <= hi], where [lo] and [hi] are
    the timestamps of the bounds: the comparison is on timestamps, and a
    record with no date is dropped. *)
Theorem date_predicate_policy :
  forall (to_datetime : string -> option Z) (df : DataFrame)
         (selected_srp_nums selected_scientific_names : option (list value))
         (start_date end_date : option string),
    (truthy_str start_date && truthy_str end_date = false ->
     update_views_filtered_df to_datetime df selected_srp_nums
       selected_scientific_names start_date end_date
     = update_views_filtered_df to_datetime df selected_srp_nums
         selected_scientific_names None None)
    /\ (Spec.record_store df = true ->
        exists base,
          update_views_filtered_df to_datetime df selected_srp_nums
            selected_scientific_names None None = Ok base
          /\ forall lo hi,
               truthy_str start_date && truthy_str end_date = true ->
               to_datetime (date_string start_date) = Some lo ->
               to_datetime (date_string end_date) = Some hi ->
               exists out,
                 update_views_filtered_df to_datetime df selected_srp_nums
                   selected_scientific_names start_date end_date = Ok out
                 /\ columns out = columns base
                 /\ rows out
                    = filter (fun record =>
                                match Spec.observation_date df record with
                                | Timestamp t => Z.leb lo t && Z.leb t hi
                                | _ => false
                                end)
                             (rows base)
                 /\ forall record,
                      In record (rows out) ->
                      exists t,
                        Spec.observation_date df record = Timestamp t
                        /\ (lo <= t <= hi)%Z).
Proof.
  intros to_datetime df a b s e. split.
  - apply filtered_df_inactive.
  - intros Hstore.
    exists (Spec.apply df
              {| Spec.selected_srp_numbers := selection a;
                 Spec.selected_scientific_names := selection b;
                 Spec.date_range := None |}).
    split.
    + apply filtered_df_apply; [exact Hstore | reflexivity].
    + intros lo hi Hact Hlo Hhi.
      destruct (filtered_df_active to_datetime df a b s e lo hi
                  Hstore Hact Hlo Hhi) as (base & Hbase & Hout).
      rewrite (filtered_df_apply to_datetime df a b None None _ Hstore eq_refl)
        in Hbase.
      injection Hbase as <-.
      eexists. split; [exact Hout|]. cbn [columns rows].
      split; [reflexivity|]. split; [reflexivity|].
      intros record Hin. apply filter_In in Hin as [_ Hin].
      destruct (Spec.observation_date df record) as [| |x|n|t];
        try discriminate.
      exists t. split; [reflexivity|].
      apply andb_true_iff in Hin as [H1 H2].
      apply Z.leb_le in H1, H2. lia.
Qed.

Lemma date_predicate_policy_witness :
  update_views_filtered_df Iso.to_datetime Sample.ABC None None
    (Some "2023-01-01") None
  = Ok Sample.ABC
  /\ update_views_filtered_df Iso.to_datetime Sample.ABC None None
       (Some "2023-01-01") (Some "2023-01-31")
     = Ok {| columns := Sample.header; rows := [Sample.A] |}.
Proof.
  split.
  - rewrite (proj1 (date_predicate_policy Iso.to_datetime Sample.ABC None None
                      (Some "2023-01-01") None) eq_refl).
    reflexivity.
  - destruct (proj2 (date_predicate_policy Iso.to_datetime Sample.ABC None None
                       (Some "2023-01-01") (Some "2023-01-31")) eq_refl)
      as (base & Hbase & Hactive).
    destruct (Hactive 1672531200000000000%Z 1675123200000000000%Z
                eq_refl eq_refl eq_refl)
      as (out & Hout & Hcols & Hrows & _).
    rewrite Hout. destruct out as [cols rs]. cbn [columns rows] in Hcols, Hrows.
    injection Hbase as <-. subst cols rs. reflexivity.
Defined.

(** C4.  The filter block of [download_data] and the filter block of
    [update_views] are the same function of the record store and the
    filter state: same records, same order, and the same exception when
    one is raised. *)
Theorem export_filter_is_view_filter :
  forall (to_datetime : string -> option Z) (df : DataFrame)
         (selected_srp_nums selected_scientific_names : option (list value))
         (start_date end_date : option string),
    download_data_filtered_df to_datetime df selected_srp_nums
      selected_scientific_names start_date end_date
    = update_views_filtered_df to_datetime df selected_srp_nums
        selected_scientific_names start_date end_date.
Proof. reflexivity. Qed.

(** C5.  When the button has not been clicked ([n_clicks] is [None], or
    zero), [download_data] returns [no_update], whatever the record store
    and the filter state are; and [no_update] is not a file: it differs
    from every download, the header-only one included. *)
Theorem export_not_requested :
  forall (to_datetime : string -> option Z)
         (format_column : string -> Series -> list string)
         (df : DataFrame) (n_clicks : option Z)
         (selected_srp_nums selected_scientific_names : option (list value))
         (start_date end_date : option string),
    truthy_int n_clicks = false ->
    download_data to_datetime format_column df n_clicks selected_srp_nums
      selected_scientific_names start_date end_date
    = Ok no_update
    /\ forall file : download,
         download_data to_datetime format_column df n_clicks selected_srp_nums
           selected_scientific_names start_date end_date
         <> Ok (Update file).
Proof.
  intros to_datetime format_column df n a b s e Hn.
  unfold download_data. rewrite Hn. split; [reflexivity|].
  intros file. discriminate.
Qed.

Lemma export_not_requested_witness :
  download_data Iso.to_datetime (Render.format_column Sample.ABC) Sample.ABC
    None (Some [Num 100]) None None None
  = Ok no_update.
Proof.
  apply (export_not_requested Iso.to_datetime
           (Render.format_column Sample.ABC) Sample.ABC None
           (Some [Num 100]) None None None).
  reflexivity.
Defined.

(** C10.  On a record store, when both bounds are given and the start
    is strictly after the end, the filter of [update_views] and the
    filter of [download_data] both return the frame with no record. *)
Theorem inverted_range_empty :
  forall (to_datetime : string -> option Z) (df : DataFrame)
         (selected_srp_nums selected_scientific_names : option (list value))
         (start_date end_date : option string) (lo hi : Z),
    Spec.record_store df = true ->
    truthy_str start_date = true ->
    truthy_str end_date = true ->
    to_datetime (date_string start_date) = Some lo ->
    to_datetime (date_string end_date) = Some hi ->
    (hi < lo)%Z ->
    update_views_filtered_df to_datetime df selected_srp_nums
      selected_scientific_names start_date end_date
    = Ok {| columns := columns df; rows := [] |}
    /\ download_data_filtered_df to_datetime df selected_srp_nums
         selected_scientific_names start_date end_date
       = Ok {| columns := columns df; rows := [] |}.
Proof.
  intros to_datetime df a b s e lo hi Hstore Hs He Hlo Hhi Hlt.
  assert (Hact : truthy_str s && truthy_str e = true)
    by (rewrite Hs, He; reflexivity).
  assert (H : update_views_filtered_df to_datetime df a b s e
              = Ok {| columns := columns df; rows := [] |}).
  { rewrite (filtered_df_apply to_datetime df a b s e
               {| Spec.selected_srp_numbers := selection a;
                  Spec.selected_scientific_names := selection b;
                  Spec.date_range := Some (lo, hi) |} Hstore).
    - unfold Spec.apply. rewrite filter_none; [reflexivity|].
      intros record. unfold Spec.satisfies.
      cbn [Spec.date_range Spec.within].
      destruct (Spec.observation_date df record) as [| |x|n|t];
        try apply andb_false_r.
      replace (Z.leb lo t && Z.leb t hi) with false; [apply andb_false_r|].
      symmetry. apply andb_false_iff.
      destruct (Z.leb_spec lo t); [right; apply Z.leb_gt; lia | left; reflexivity].
    - unfold Spec.specification.
      rewrite (range_of_active to_datetime _ _ lo hi Hact Hlo Hhi).
      reflexivity. }
  split; exact H.
Qed.

Lemma inverted_range_empty_witness :
  Spec.record_store Sample.ABC = true
  /\ update_views_filtered_df Iso.to_datetime Sample.ABC None None
       (Some "2023-06-30") (Some "2023-01-01")
     = Ok {| columns := Sample.header; rows := [] |}.
Proof.
  split; [reflexivity|].
  apply (inverted_range_empty Iso.to_datetime Sample.ABC None None
           (Some "2023-06-30") (Some "2023-01-01")
           1688083200000000000%Z 1672531200000000000%Z);
    try reflexivity.
Defined.

Section Written.

Variable format_column : string -> Series -> list string.

(** The written rows are as many as the rows of the frame, and each
    holds one text per column. *)
Lemma written_rows_length (df : DataFrame) :
  List.length (written_rows format_column df) = len df.
Proof. unfold written_rows. rewrite length_map, length_seq. reflexivity. Qed.

Lemma written_rows_width (df : DataFrame) :
  Forall (fun record => List.length record = List.length (columns df))
         (written_rows format_column df).
Proof.
  unfold written_rows. apply Forall_forall. intros record Hin.
  apply in_map_iff in Hin as (j & <- & _).
  unfold written_columns.
  rewrite !length_map, length_combine, length_seq. apply Nat.min_id.
Qed.

(** The text of a frame reads back as its labels and its written
    rows, when none of them has a carriage return left unquoted. *)
Lemma reader_to_csv (df : DataFrame) :
  Csv.no_bare_CR (columns df :: written_rows format_column df) = true ->
  Csv.reader (to_csv format_column df)
  = columns df :: written_rows format_column df.
Proof.
  intros Hcr. unfold to_csv.
  change (Csv.writerow (columns df)
          ++ Csv.writerows (written_rows format_column df))%string
    with (Csv.writerows (columns df :: written_rows format_column df)).
  apply CsvTheory.reader_writerows. exact Hcr.
Qed.

End Written.

(** C6, as the specification states it, fails: a cell whose text has a
    carriage return and no comma, quote or line feed is written without
    quotes, and the export of the one record reads back as three
    records, not two. *)
Lemma export_bare_carriage_return :
  len Sample.carriage_return = 1
  /\ exists file,
       download_data Iso.to_datetime
         (Render.format_column Sample.carriage_return) Sample.carriage_return
         (Some 1%Z) None None None None
       = Ok (Update file)
       /\ Csv.reader (content file)
          = [["SRP_Num"; "Notes"]; ["1"; "cr"]; ["here"]]
       /\ List.length (Csv.reader (content file))
          <> S (len Sample.carriage_return).
Proof.
  split; [reflexivity|]. eexists. split; [reflexivity|].
  split; [vm_compute; reflexivity | vm_compute; discriminate].
Qed.

(** C6, amended.  A triggered export (the button has been clicked) of a
    filtered frame in which no column label and no written cell has a
    carriage return left unquoted is a download named
    [filtered_srp_data.csv] whose text is comma-delimited csv: read back,
    its first record is the list of column labels in the order of the
    source frame, followed by one record per row holding one field per
    column, the written cells of that row, and nothing else (no index
    column).  It has one record more than the frame has rows; for a frame
    with no row it is the header alone. *)
Theorem export_csv :
  forall (to_datetime : string -> option Z)
         (format_column : string -> Series -> list string)
         (df : DataFrame) (n_clicks : option Z)
         (selected_srp_nums selected_scientific_names : option (list value))
         (start_date end_date : option string) (filtered_df : DataFrame),
    truthy_int n_clicks = true ->
    download_data_filtered_df to_datetime df selected_srp_nums
      selected_scientific_names start_date end_date = Ok filtered_df ->
    Csv.no_bare_CR (columns filtered_df
                    :: written_rows format_column filtered_df) = true ->
    exists file,
      download_data to_datetime format_column df n_clicks selected_srp_nums
        selected_scientific_names start_date end_date
      = Ok (Update file)
      /\ filename file = "filtered_srp_data.csv"
      /\ columns filtered_df = columns df
      /\ Csv.reader (content file)
         = columns filtered_df :: written_rows format_column filtered_df
      /\ Forall (fun record =>
                   List.length record = List.length (columns filtered_df))
                (written_rows format_column filtered_df)
      /\ List.length (Csv.reader (content file)) = S (len filtered_df)
      /\ (rows filtered_df = [] ->
          Csv.reader (content file) = [columns filtered_df]).
Proof.
  intros to_datetime format_column df n a b s e fd Hn Hfd Hcr.
  exists (send_data_frame (to_csv format_column fd) "filtered_srp_data.csv").
  pose proof (reader_to_csv format_column fd Hcr) as Hread.
  split; [|split; [|split; [|split; [|split; [|split]]]]].
  - unfold download_data. rewrite Hn, Hfd. reflexivity.
  - reflexivity.
  - exact (filtered_df_columns to_datetime df fd a b s e Hfd).
  - exact Hread.
  - apply written_rows_width.
  - cbn [send_data_frame content]. rewrite Hread. cbn [List.length].
    rewrite written_rows_length. reflexivity.
  - intros Hrows. cbn [send_data_frame content]. rewrite Hread.
    unfold written_rows, len. rewrite Hrows. reflexivity.
Qed.

Lemma export_csv_witness :
  exists file,
    download_data Iso.to_datetime (Render.format_column Sample.ABC) Sample.ABC
      (Some 1%Z) (Some [Num 100]) None None None
    = Ok (Update file)
    /\ filename file = "filtered_srp_data.csv"
    /\ Csv.reader (content file)
       = [Sample.header;
          ["SRP-0001"; "100"; "Ursus americanus"; "American black bear";
           "Brewster"; "2023-01-10"; "30.0"; "-103"; "tracks, scat"]].
Proof.
  destruct (export_csv Iso.to_datetime (Render.format_column Sample.ABC)
              Sample.ABC (Some 1%Z) (Some [Num 100]) None None None
              {| columns := Sample.header; rows := [Sample.A] |}
              eq_refl eq_refl eq_refl)
    as (file & Hfile & Hname & _ & Hread & _).
  exists file. split; [exact Hfile|]. split; [exact Hname|].
  rewrite Hread. reflexivity.
Defined.

(** ** Loading *)

Lemma load_missing_column (df : DataFrame) (col : string) :
  In col Spec.load_columns -> has_column df col = false ->
  raises (load (Some df)).
Proof.
  intros Hin Hcol. pose proof (getitem_no_column df col Hcol) as Hget.
  unfold load, read_excel. rewrite bind_ok.
  repeat load_step.
  simpl in Hin. repeat (destruct Hin as [<- | Hin]; [congruence|]).
  contradiction.
Qed.

Lemma load_master_df (file : option DataFrame) (app : App) :
  load file = Ok app -> file = Some (master_df app).
Proof.
  destruct file as [df|]; [|discriminate].
  unfold load, read_excel. rewrite bind_ok. intros H.
  repeat match type of H with
         | Py.bind ?m _ = Ok _ =>
             destruct m; [rewrite bind_ok in H | discriminate]
         end.
  injection H as <-. reflexivity.
Qed.

Section MissingColumn.

Variable to_datetime : string -> option Z.

(** A frame without one of the columns that the views read makes
    every call of [update_views] raise. *)
Lemma update_views_missing_column (df : DataFrame) (col : string)
    (selected_srp_nums selected_scientific_names : option (list value))
    (start_date end_date : option string) :
  In col Spec.view_columns -> has_column df col = false ->
  raises (update_views to_datetime df selected_srp_nums
            selected_scientific_names start_date end_date).
Proof.
  intros Hin Hcol. unfold update_views.
  destruct (update_views_filtered_df to_datetime df selected_srp_nums
              selected_scientific_names start_date end_date) as [fd|ex] eqn:Hfd;
    [|exists ex; reflexivity].
  rewrite bind_ok.
  pose proof (filtered_df_columns to_datetime _ _ _ _ _ _ Hfd) as Heq.
  rewrite <- (has_column_columns df fd col Heq) in Hcol.
  exists ValueError. unfold scatter_mapbox.
  destruct Hin as [<- | Hin].
  { rewrite (column_no_column fd _ Hcol). reflexivity. }
  destruct (Plotly.column fd "Latitude_or_transect_start_latitude") as [la|ex]
    eqn:Hla; [rewrite bind_ok|].
  2:{ unfold Plotly.column in Hla. destruct (getitem fd _); [discriminate|].
      injection Hla as <-. reflexivity. }
  destruct Hin as [<- | Hin].
  { rewrite (column_no_column fd _ Hcol). reflexivity. }
  destruct (Plotly.column fd "Longitude_or_transect_start_longitude") as [lo|ex]
    eqn:Hlo; [rewrite bind_ok|].
  2:{ unfold Plotly.column in Hlo. destruct (getitem fd _); [discriminate|].
      injection Hlo as <-. reflexivity. }
  rewrite (check_columns_missing fd hover_columns col Hin Hcol). reflexivity.
Qed.

End MissingColumn.

(** C7, as the specification states it, fails: the workbook without
    its County column lacks a required column, and the load succeeds. *)
Lemma load_without_county :
  In "County" Spec.required_columns
  /\ has_column Sample.no_county "County" = false
  /\ ~ raises (load (Some Sample.no_county))
  /\ exists app, load (Some Sample.no_county) = Ok app
                 /\ master_df app = Sample.no_county.
Proof.
  split; [simpl; tauto|]. split; [reflexivity|].
  assert (H : exists app, load (Some Sample.no_county) = Ok app
                          /\ master_df app = Sample.no_county).
  { eexists. split; [vm_compute; reflexivity | reflexivity]. }
  split; [|exact H].
  destruct H as (app & Happ & _). intros [ex Hex]. congruence.
Qed.

(** C7, amended.  The load raises when there is no readable file and
    when the file lacks one of the five columns that the load reads:
    the longitude, the latitude, SRP_Num, Scientific_Name and
    Observation_Date.  When it returns, the master frame is the frame of
    the file: its rows in file order, with all its columns. *)
Theorem load_fails_or_preserves :
  forall file : option DataFrame,
    (file = None
     \/ (exists df col, file = Some df /\ In col Spec.load_columns
                        /\ has_column df col = false) ->
     raises (load file))
    /\ (forall app, load file = Ok app -> file = Some (master_df app)).
Proof.
  intros file. split.
  - intros [-> | (df & col & -> & Hin & Hcol)].
    + exists FileNotFoundError. reflexivity.
    + exact (load_missing_column df col Hin Hcol).
  - intros app. apply load_master_df.
Qed.

Lemma load_fails_or_preserves_witness :
  raises (load None)
  /\ raises (load (Some {| columns := ["SRP_Num"]; rows := [[Num 100]] |}))
  /\ exists app, load (Some Sample.ABC) = Ok app /\ master_df app = Sample.ABC.
Proof.
  split; [|split].
  - apply (proj1 (load_fails_or_preserves None)). left. reflexivity.
  - apply (proj1 (load_fails_or_preserves
                    (Some {| columns := ["SRP_Num"]; rows := [[Num 100]] |}))).
    right. exists {| columns := ["SRP_Num"]; rows := [[Num 100]] |}.
    exists "Scientific_Name". split; [reflexivity|].
    split; [simpl; tauto | reflexivity].
  - assert (H : exists app, load (Some Sample.ABC) = Ok app)
      by (eexists; vm_compute; reflexivity).
    destruct H as (app & Happ). exists app. split; [exact Happ|].
    pose proof (proj2 (load_fails_or_preserves (Some Sample.ABC)) app Happ)
      as Hfile.
    injection Hfile as <-. reflexivity.
Defined.

(** C8.  For a frame that has the columns the views read, the
    statistics table of [update_views] has exactly two rows: the number
    of distinct SRP_Num values of the filtered frame and the number of
    distinct Scientific_Name values of the filtered frame. *)
Theorem statistics_summary :
  forall (to_datetime : string -> option Z) (df : DataFrame)
         (selected_srp_nums selected_scientific_names : option (list value))
         (start_date end_date : option string) (filtered_df : DataFrame),
    update_views_filtered_df to_datetime df selected_srp_nums
      selected_scientific_names start_date end_date = Ok filtered_df ->
    forallb (has_column df) Spec.view_columns = true ->
    exists views,
      update_views to_datetime df selected_srp_nums selected_scientific_names
        start_date end_date = Ok views
      /\ statistics_output views
         = Table [
             Thead (Tr [Th "Category"; Th "Count"]);
             Tbody [
               Tr [Td (Str "SRP Numbers");
                   Td (Num (Z.of_nat
                              (Spec.distinct
                                 (map (Spec.srp_number filtered_df)
                                      (rows filtered_df)))))];
               Tr [Td (Str "Scientific Names");
                   Td (Num (Z.of_nat
                              (Spec.distinct
                                 (map (Spec.scientific_name filtered_df)
                                      (rows filtered_df)))))]
             ]
           ].
Proof.
  intros to_datetime df a b s e fd Hfd Hcols.
  destruct (update_views_ok to_datetime df fd a b s e Hfd Hcols)
    as (fig & _ & Hviews).
  eexists. split; [exact Hviews|].
  cbn [statistics_output]. unfold stats_table_of.
  rewrite !unique_distinct. reflexivity.
Qed.

Lemma statistics_summary_witness :
  exists views,
    update_views Iso.to_datetime Sample.AB None None None None = Ok views
    /\ statistics_output views
       = Table [
           Thead (Tr [Th "Category"; Th "Count"]);
           Tbody [
             Tr [Td (Str "SRP Numbers"); Td (Num 2)];
             Tr [Td (Str "Scientific Names"); Td (Num 2)]
           ]
         ].
Proof.
  destruct (statistics_summary Iso.to_datetime Sample.AB None None None None
              Sample.AB eq_refl eq_refl)
    as (views & Hviews & Hstats).
  exists views. split; [exact Hviews|].
  rewrite Hstats. reflexivity.
Defined.

Lemma table_rows_table_of (df : DataFrame) :
  Spec.table_rows (table_of df)
  = map (fun record => map (row_get df record) (columns df)) (rows df).
Proof.
  unfold table_of, Spec.table_rows. rewrite map_map.
  apply map_ext. intros record. cbn [Spec.cells_of]. rewrite map_map.
  reflexivity.
Qed.

(** C9, as the specification states it, fails: the record of the sample
    with no latitude is not dropped from the map data.  The figure that
    [update_views] returns holds an entry for it, third of three, with
    the missing latitude and its five tooltip fields. *)
Lemma map_keeps_record_without_latitude :
  In Sample.C (rows Sample.ABC)
  /\ Spec.latitude Sample.ABC Sample.C = NaN
  /\ exists views,
       update_views Iso.to_datetime Sample.ABC None None None None = Ok views
       /\ Plotly.lat (spatial_map views) = [Num 30; Num 30; NaN]
       /\ Plotly.lon (spatial_map views) = [Num (-103); Num (-97); Num (-98)]
       /\ nth_error (Plotly.customdata (spatial_map views)) 2
          = Some [Str "SRP-0003"; Str "Lynx rufus"; Str "Bobcat"; Str "Hays";
                  Num 200].
Proof.
  split; [simpl; tauto|]. split; [reflexivity|].
  eexists. split; [reflexivity|]. repeat split.
Qed.

(** C9, amended.  For a frame that has the columns the views read, the
    figure of the map holds one entry for every record of the filtered
    frame, in order: its latitude and its longitude as the cells are, a
    missing coordinate included, and the tooltip fields SRP_ID,
    Scientific_Name, Common_Name, County and SRP_Num.  The script drops
    no record from the map data; every record of the filtered frame has
    its row in the table and is counted in the statistics. *)
Theorem map_points_projection :
  forall (to_datetime : string -> option Z) (df : DataFrame)
         (selected_srp_nums selected_scientific_names : option (list value))
         (start_date end_date : option string) (filtered_df : DataFrame),
    update_views_filtered_df to_datetime df selected_srp_nums
      selected_scientific_names start_date end_date = Ok filtered_df ->
    forallb (has_column df) Spec.view_columns = true ->
    exists views,
      update_views to_datetime df selected_srp_nums selected_scientific_names
        start_date end_date = Ok views
      /\ Plotly.lat (spatial_map views)
         = map (Spec.latitude filtered_df) (rows filtered_df)
      /\ Plotly.lon (spatial_map views)
         = map (Spec.longitude filtered_df) (rows filtered_df)
      /\ Plotly.hover_data (spatial_map views)
         = ["SRP_ID"; "Scientific_Name"; "Common_Name"; "County"; "SRP_Num"]
      /\ Plotly.customdata (spatial_map views)
         = map (fun record =>
                  [row_get filtered_df record "SRP_ID";
                   row_get filtered_df record "Scientific_Name";
                   row_get filtered_df record "Common_Name";
                   row_get filtered_df record "County";
                   row_get filtered_df record "SRP_Num"])
               (rows filtered_df)
      /\ Spec.table_rows (table_output views)
         = map (fun record => map (row_get filtered_df record)
                                  (columns filtered_df))
               (rows filtered_df)
      /\ statistics_output views
         = Table [
             Thead (Tr [Th "Category"; Th "Count"]);
             Tbody [
               Tr [Td (Str "SRP Numbers");
                   Td (Num (Z.of_nat
                              (Spec.distinct
                                 (map (Spec.srp_number filtered_df)
                                      (rows filtered_df)))))];
               Tr [Td (Str "Scientific Names");
                   Td (Num (Z.of_nat
                              (Spec.distinct
                                 (map (Spec.scientific_name filtered_df)
                                      (rows filtered_df)))))]
             ]
           ].
Proof.
  intros to_datetime df a b s e fd Hfd Hcols.
  destruct (update_views_ok to_datetime df fd a b s e Hfd Hcols)
    as (fig & Hfig & Hviews).
  assert (Hcols' : forallb (has_column fd) Spec.view_columns = true).
  { pose proof (filtered_df_columns to_datetime df fd a b s e Hfd) as Heq.
    simpl in Hcols |- *. rewrite !(has_column_columns df fd _ Heq).
    exact Hcols. }
  rewrite (scatter_mapbox_ok fd Hcols') in Hfig. injection Hfig as <-.
  eexists. split; [exact Hviews|].
  cbn [spatial_map table_output statistics_output Plotly.lat Plotly.lon
       Plotly.hover_data Plotly.customdata].
  split; [reflexivity|]. split; [reflexivity|]. split; [reflexivity|].
  split; [reflexivity|]. split; [apply table_rows_table_of|].
  unfold stats_table_of. rewrite !unique_distinct. reflexivity.
Qed.

Lemma map_points_projection_witness :
  exists views,
    update_views Iso.to_datetime Sample.ABC (Some [Num 200]) None None None
    = Ok views
    /\ Plotly.lat (spatial_map views) = [Num 30; NaN]
    /\ Plotly.lon (spatial_map views) = [Num (-97); Num (-98)]
    /\ Plotly.customdata (spatial_map views)
       = [[Str "SRP-0002"; Str "Lynx rufus"; Str "Bobcat"; Str "Travis";
           Num 200];
          [Str "SRP-0003"; Str "Lynx rufus"; Str "Bobcat"; Str "Hays";
           Num 200]]
    /\ Spec.table_rows (table_output views) = [Sample.B; Sample.C]
    /\ statistics_output views
       = Table [
           Thead (Tr [Th "Category"; Th "Count"]);
           Tbody [
             Tr [Td (Str "SRP Numbers"); Td (Num 1)];
             Tr [Td (Str "Scientific Names"); Td (Num 1)]
           ]
         ].
Proof.
  destruct (map_points_projection Iso.to_datetime Sample.ABC (Some [Num 200])
              None None None
              {| columns := Sample.header; rows := [Sample.B; Sample.C] |}
              eq_refl eq_refl)
    as (views & Hviews & Hlat & Hlon & _ & Hdata & Htable & Hstats).
  exists views. split; [exact Hviews|].
  rewrite Hlat, Hlon, Hdata, Htable, Hstats. repeat split.
Defined.

(* ===================================================================== *)
(** * Scenarios *)
(* ===================================================================== *)

(** After a successful load the five columns that the load reads are
    there, the three filtered columns among them. *)
Lemma load_columns_present (df : DataFrame) (app : App) :
  load (Some df) = Ok app ->
  forallb (has_column df) Spec.load_columns = true.
Proof.
  intros Hload. apply forallb_forall. intros col Hin.
  destruct (has_column df col) eqn:Hcol; [reflexivity|].
  destruct (load_missing_column df col Hin Hcol) as [ex Hex]. congruence.
Qed.

(** Filtering never adds a record. *)
Lemma apply_length (df : DataFrame) (spec : Spec.FilterSpecification) :
  len (Spec.apply df spec) <= len df.
Proof. unfold len, Spec.apply. cbn [rows]. apply filter_length_le. Qed.

(** Filtering twice is filtering once. *)
Lemma apply_idempotent (df : DataFrame) (spec : Spec.FilterSpecification) :
  Spec.apply (Spec.apply df spec) spec = Spec.apply df spec.
Proof.
  unfold Spec.apply. cbn [columns rows]. f_equal.
  rewrite filter_filter. apply filter_ext. intros record.
  unfold Spec.satisfies, Spec.srp_number, Spec.scientific_name,
    Spec.observation_date, row_get. cbn [columns].
  apply andb_diag.
Qed.

Example scenario_srp_number :
  update_views_filtered_df Iso.to_datetime Sample.AB (Some [Num 100]) None
    None None
  = Ok {| columns := Sample.header; rows := [Sample.A] |}.
Proof. reflexivity. Qed.

Example scenario_date_range :
  update_views_filtered_df Iso.to_datetime Sample.AB None None
    (Some "2023-01-01") (Some "2023-01-31")
  = Ok {| columns := Sample.header; rows := [Sample.A] |}.
Proof. reflexivity. Qed.

Example scenario_no_constraint :
  update_views_filtered_df Iso.to_datetime Sample.AB None None None None
  = Ok Sample.AB.
Proof. reflexivity. Qed.

(** The initial dates of the date picker arrive with a time of day. *)
Example scenario_initial_dates :
  update_views_filtered_df Iso.to_datetime Sample.ABC None None
    (Some "2023-01-10T00:00:00") (Some "2023-06-01T00:00:00")
  = Ok Sample.AB.
Proof. reflexivity. Qed.

(** A date that is no date makes the comparison raise. *)
Example scenario_bad_date :
  update_views_filtered_df Iso.to_datetime Sample.AB None None
    (Some "yesterday") (Some "2023-01-31")
  = Raise TypeError.
Proof. reflexivity. Qed.

(** The record with no latitude is in the table and in the count, and
    in the figure of the map with its missing latitude. *)
Example scenario_missing_latitude :
  exists views,
    update_views Iso.to_datetime Sample.ABC None None None None = Ok views
    /\ Plotly.lat (spatial_map views) = [Num 30; Num 30; NaN]
    /\ Spec.table_rows (table_output views) = [Sample.A; Sample.B; Sample.C]
    /\ record_count views = "Record Count: 3"
    /\ table_record_count views = record_count views.
Proof. eexists. split; [reflexivity|]. repeat split. Qed.

(** Without the County column every view raises, in the call of
    plotly express. *)
Example scenario_no_county :
  update_views Iso.to_datetime Sample.no_county None None None None
  = Raise ValueError.
Proof. reflexivity. Qed.

Example scenario_no_file : load None = Raise FileNotFoundError.
Proof. reflexivity. Qed.

(** An export of no record is the header alone, and is an update. *)
Example scenario_empty_export :
  exists file,
    download_data Iso.to_datetime (Render.format_column Sample.AB) Sample.AB
      (Some 1%Z) (Some [Num 300]) None None None
    = Ok (Update file)
    /\ Csv.reader (content file) = [Sample.header].
Proof. eexists. split; [reflexivity|]. vm_compute. reflexivity. Qed.

(** A field with a comma is quoted by the writer and read back whole. *)
Example scenario_quoted_field :
  Csv.writerow ["tracks, scat"; "7"]
  = String Csv.dquote
      ("tracks, scat" ++ String Csv.dquote ("," ++ "7" ++ String Csv.LF EmptyString))%string
  /\ Csv.reader (Csv.writerow ["tracks, scat"; "7"]) = [["tracks, scat"; "7"]].
Proof. split; reflexivity. Qed.

(** A carriage return alone does not make the writer quote a field,
    and ends a record for the reader. *)
Example scenario_carriage_return :
  Csv.writerow [("cr" ++ String Csv.CR "here")%string; "1"]
  = ("cr" ++ String Csv.CR ("here,1" ++ String Csv.LF EmptyString))%string
  /\ Csv.reader (Csv.writerow [("cr" ++ String Csv.CR "here")%string; "1"])
     = [["cr"]; ["here"; "1"]].
Proof. split; reflexivity. Qed.

(** The workbook with no row loads, with missing initial dates, and
    its filter returns whatever the two dates are. *)
Example scenario_no_row :
  (exists app,
     load (Some {| columns := Sample.header; rows := [] |}) = Ok app
     /\ date_filter_start_date (layout app) = NaN
     /\ date_filter_end_date (layout app) = NaN)
  /\ update_views_filtered_df Iso.to_datetime
       {| columns := Sample.header; rows := [] |} None None
       (Some "yesterday") (Some "tomorrow")
     = Ok {| columns := Sample.header; rows := [] |}.
Proof. split; [eexists; repeat split|]; reflexivity. Qed.

(** A datetime column keeps its dtype when no row is left: a date that
    is no date still raises. *)
Example scenario_no_row_left :
  update_views_filtered_df Iso.to_datetime Sample.ABC (Some [Num 300]) None
    (Some "yesterday") (Some "2023-01-31")
  = Raise TypeError.
Proof. reflexivity. Qed.

(* ===================================================================== *)
(** * Further properties of the program *)
(* ===================================================================== *)

(** ** Loading and the layout *)

Lemma getitem_ok_inv (df : DataFrame) (col : string) (s : Series) :
  getitem df col = Ok s ->
  has_column df col = true
  /\ s = map (fun row => row_get df row col) (rows df).
Proof.
  unfold getitem, has_column, row_get.
  destruct (index_of col (columns df)); [|discriminate].
  intros [= <-]. split; reflexivity.
Qed.




(** What a successful load has read and built. *)
Lemma load_inv (df : DataFrame) (app : App) :
  load (Some df) = Ok app ->
  forallb (has_column df) Spec.load_columns = true
  /\ numeric (map (Spec.longitude df) (rows df)) = true
  /\ numeric (map (Spec.latitude df) (rows df)) = true
  /\ master_df app = df
  /\ master_gdf app
     = {| frame := df;
          geometry := combine (map (Spec.longitude df) (rows df))
                              (map (Spec.latitude df) (rows df));
          crs := "EPSG:4326" |}
  /\ srp_num_filter_options (layout app)
     = unique (map (Spec.srp_number df) (rows df))
  /\ scientific_name_filter_options (layout app)
     = unique (map (Spec.scientific_name df) (rows df))
  /\ Pandas.min (map (Spec.observation_date df) (rows df))
     = Ok (date_filter_start_date (layout app))
  /\ Pandas.max (map (Spec.observation_date df) (rows df))
     = Ok (date_filter_end_date (layout app)).
Proof.
  intros Hload. pose proof (load_columns_present df app Hload) as Hcols.
  split; [exact Hcols|].
  unfold load, read_excel in Hload. rewrite bind_ok in Hload.
  destruct (getitem df "Longitude_or_transect_start_longitude") as [x|] eqn:Hx;
    [|discriminate].
  destruct (getitem df "Latitude_or_transect_start_latitude") as [y|] eqn:Hy;
    [|discriminate].
  destruct (getitem df "SRP_Num") as [srp|] eqn:Hsrp.
  2:{ cbn [Py.bind] in Hload.
      destruct (points_from_xy x y); discriminate. }
  destruct (getitem df "Scientific_Name") as [sci|] eqn:Hsci.
  2:{ cbn [Py.bind] in Hload.
      destruct (points_from_xy x y); discriminate. }
  destruct (getitem df "Observation_Date") as [dates|] eqn:Hdates.
  2:{ cbn [Py.bind] in Hload.
      destruct (points_from_xy x y); discriminate. }
  apply getitem_ok_inv in Hx as [_ ->], Hy as [_ ->], Hsrp as [_ ->],
    Hsci as [_ ->], Hdates as [_ ->].
  cbn [Py.bind] in Hload. unfold points_from_xy in Hload.
  fold (Spec.longitude df) (Spec.latitude df) in Hload.
  destruct (numeric (map (Spec.longitude df) (rows df))
            && numeric (map (Spec.latitude df) (rows df))) eqn:Hnum;
    [|discriminate].
  apply andb_true_iff in Hnum as [Hlon Hlat].
  cbn [Py.bind] in Hload.
  destruct (Pandas.min _) as [lo|] eqn:Hmin; [|discriminate].
  cbn [Py.bind] in Hload.
  destruct (Pandas.max _) as [hi|] eqn:Hmax; [|discriminate].
  cbn [Py.bind] in Hload. injection Hload as <-.
  cbn [master_df master_gdf layout srp_num_filter_options
       scientific_name_filter_options date_filter_start_date
       date_filter_end_date].
  repeat split; assumption.
Qed.


(** X2.  After a successful load the options of each dropdown are
    distinct and are exactly the values that occur in its column. *)
Theorem dropdown_options :
  forall (df : DataFrame) (app : App),
    load (Some df) = Ok app ->
    NoDup (srp_num_filter_options (layout app))
    /\ NoDup (scientific_name_filter_options (layout app))
    /\ (forall v,
          In v (srp_num_filter_options (layout app))
          <-> exists record,
                In record (rows df) /\ Spec.srp_number df record = v)
    /\ (forall v,
          In v (scientific_name_filter_options (layout app))
          <-> exists record,
                In record (rows df) /\ Spec.scientific_name df record = v).
Proof.
  intros df app Hload.
  destruct (load_inv df app Hload)
    as (_ & _ & _ & _ & _ & -> & -> & _ & _).
  split; [apply unique_NoDup|]. split; [apply unique_NoDup|].
  split; intros v; rewrite unique_In, in_map_iff;
    split; intros (record & H1 & H2); exists record; tauto.
Qed.

Lemma dropdown_options_witness :
  exists app,
    load (Some Sample.ABC) = Ok app
    /\ NoDup (srp_num_filter_options (layout app))
    /\ srp_num_filter_options (layout app) = [Num 100; Num 200].
Proof.
  assert (H : exists app, load (Some Sample.ABC) = Ok app
                          /\ srp_num_filter_options (layout app)
                             = [Num 100; Num 200])
    by (eexists; split; vm_compute; reflexivity).
  destruct H as (app & Happ & Hopts). exists app.
  split; [exact Happ|].
  split; [exact (proj1 (dropdown_options Sample.ABC app Happ)) | exact Hopts].
Defined.

(** ** The initial dates of the date picker *)

Lemma fold_min_le (ts : list Z) :
  forall t,
    (fold_left Z.min ts t <= t)%Z
    /\ forall x, In x ts -> (fold_left Z.min ts t <= x)%Z.
Proof.
  induction ts as [|u ts IH]; intros t; simpl.
  - split; [lia | tauto].
  - destruct (IH (Z.min t u)) as [H1 H2]. split; [lia|].
    intros x [<- | Hx]; [lia | auto].
Qed.

Lemma fold_max_ge (ts : list Z) :
  forall t,
    (t <= fold_left Z.max ts t)%Z
    /\ forall x, In x ts -> (x <= fold_left Z.max ts t)%Z.
Proof.
  induction ts as [|u ts IH]; intros t; simpl.
  - split; [lia | tauto].
  - destruct (IH (Z.max t u)) as [H1 H2]. split; [lia|].
    intros x [<- | Hx]; [lia | auto].
Qed.

Lemma timestamps_In (s : Series) (t : Z) :
  In (Timestamp t) s <-> In t (timestamps s).
Proof.
  induction s as [|v s IH]; simpl; [tauto|].
  destruct v; simpl; rewrite <- IH; split;
    try (intros [H | H]; [discriminate | exact H]); try tauto.
  - intros [H | H]; [left; congruence | tauto].
  - intros [-> | H]; tauto.
Qed.

(** The minimum and the maximum of a datetime column bound each of
    its timestamps. *)
Lemma min_max_datetime (s : Series) (t : Z) :
  forallb is_datetime s = true -> In (Timestamp t) s ->
  exists lo hi,
    Pandas.min s = Ok (Timestamp lo) /\ Pandas.max s = Ok (Timestamp hi)
    /\ (lo <= t <= hi)%Z.
Proof.
  intros Hs Ht. unfold Pandas.min, Pandas.max.
  rewrite (infer_datetime s); [|intros ->; contradiction | exact Hs].
  apply timestamps_In in Ht.
  destruct (timestamps s) as [|u ts]; [contradiction|].
  exists (fold_left Z.min ts u), (fold_left Z.max ts u).
  split; [reflexivity|]. split; [reflexivity|].
  destruct (fold_min_le ts u) as [H1 H2].
  destruct (fold_max_ge ts u) as [H3 H4].
  destruct Ht as [<- | Ht]; [lia|].
  specialize (H2 t Ht). specialize (H4 t Ht). lia.
Qed.

Lemma initial_dates_bound (df : DataFrame) (app : App)
    (record : list value) (t : Z) :
  load (Some df) = Ok app ->
  forallb (fun record => is_datetime (Spec.observation_date df record))
          (rows df) = true ->
  In record (rows df) ->
  Spec.observation_date df record = Timestamp t ->
  exists lo hi,
    date_filter_start_date (layout app) = Timestamp lo
    /\ date_filter_end_date (layout app) = Timestamp hi
    /\ (lo <= t <= hi)%Z.
Proof.
  intros Hload Hdates Hin Ht.
  destruct (load_inv df app Hload)
    as (_ & _ & _ & _ & _ & _ & _ & Hmin & Hmax).
  destruct (min_max_datetime (map (Spec.observation_date df) (rows df)) t)
    as (lo & hi & Hlo & Hhi & Hle).
  { rewrite forallb_map. exact Hdates. }
  { rewrite <- Ht. apply in_map. exact Hin. }
  exists lo, hi. rewrite Hlo in Hmin. rewrite Hhi in Hmax.
  injection Hmin as <-. injection Hmax as <-. auto.
Qed.

(** X3.  After a successful load: when the date column holds dates and
    missing dates only, the initial start and end dates of the date
    picker are timestamps that bound the date of every dated record;
    for a workbook with no row, both are the missing value [NaN]. *)
Theorem initial_date_range :
  forall (df : DataFrame) (app : App),
    load (Some df) = Ok app ->
    (forallb (fun record => is_datetime (Spec.observation_date df record))
             (rows df) = true ->
     forall record t,
       In record (rows df) ->
       Spec.observation_date df record = Timestamp t ->
       exists lo hi,
         date_filter_start_date (layout app) = Timestamp lo
         /\ date_filter_end_date (layout app) = Timestamp hi
         /\ (lo <= t <= hi)%Z)
    /\ (rows df = [] ->
        date_filter_start_date (layout app) = NaN
        /\ date_filter_end_date (layout app) = NaN).
Proof.
  intros df app Hload. split.
  - intros Hdates record t. apply initial_dates_bound; assumption.
  - intros Hrows.
    destruct (load_inv df app Hload)
      as (_ & _ & _ & _ & _ & _ & _ & Hmin & Hmax).
    rewrite Hrows in Hmin, Hmax. cbn in Hmin, Hmax.
    injection Hmin as <-. injection Hmax as <-. split; reflexivity.
Qed.

Lemma initial_date_range_witness :
  (exists app,
     load (Some Sample.ABC) = Ok app
     /\ exists lo hi,
          date_filter_start_date (layout app) = Timestamp lo
          /\ date_filter_end_date (layout app) = Timestamp hi
          /\ (lo <= 1685577600000000000 <= hi)%Z)
  /\ exists app,
       load (Some {| columns := Sample.header; rows := [] |}) = Ok app
       /\ date_filter_start_date (layout app) = NaN
       /\ date_filter_end_date (layout app) = NaN.
Proof.
  split.
  - assert (H : exists app, load (Some Sample.ABC) = Ok app)
      by (eexists; vm_compute; reflexivity).
    destruct H as (app & Happ). exists app. split; [exact Happ|].
    apply (proj1 (initial_date_range Sample.ABC app Happ) eq_refl Sample.B).
    + right. left. reflexivity.
    + reflexivity.
  - assert (H : exists app,
                  load (Some {| columns := Sample.header; rows := [] |})
                  = Ok app)
      by (eexists; vm_compute; reflexivity).
    destruct H as (app & Happ). exists app. split; [exact Happ|].
    exact (proj2 (initial_date_range _ app Happ) eq_refl).
Defined.

(** X4.  With the initial dates of the date picker given back as the
    two bounds and nothing selected, the filter keeps exactly the dated
    records: a record with no date is not shown, though no filter was
    set by the user. *)
Theorem initial_view_drops_undated :
  forall (to_datetime : string -> option Z) (df : DataFrame) (app : App)
         (start_date end_date : option string) (lo hi : Z),
    load (Some df) = Ok app ->
    Spec.record_store df = true ->
    date_filter_start_date (layout app) = Timestamp lo ->
    date_filter_end_date (layout app) = Timestamp hi ->
    truthy_str start_date = true ->
    truthy_str end_date = true ->
    to_datetime (date_string start_date) = Some lo ->
    to_datetime (date_string end_date) = Some hi ->
    update_views_filtered_df to_datetime df None None start_date end_date
    = Ok {| columns := columns df;
            rows := filter (Spec.dated df) (rows df) |}.
Proof.
  intros to_datetime df app s e lo hi Hload Hstore Hstart Hend Hs He Hlo Hhi.
  assert (Hdates : forallb (fun record =>
                              is_datetime (Spec.observation_date df record))
                           (rows df) = true).
  { unfold Spec.record_store in Hstore.
    apply andb_true_iff in Hstore as [_ H]. exact H. }
  rewrite (filtered_df_apply to_datetime df None None s e
             {| Spec.selected_srp_numbers := [];
                Spec.selected_scientific_names := [];
                Spec.date_range := Some (lo, hi) |} Hstore).
  - unfold Spec.apply. f_equal. f_equal. apply filter_ext_in.
    intros record Hin. unfold Spec.satisfies, Spec.dated.
    cbn [Spec.selected_srp_numbers Spec.selected_scientific_names
         Spec.date_range Spec.member Spec.within andb].
    destruct (Spec.observation_date df record) as [| |x|n|t] eqn:Ht;
      try reflexivity.
    destruct (initial_dates_bound df app record t Hload Hdates Hin Ht)
      as (lo' & hi' & Hlo' & Hhi' & Hle).
    rewrite Hstart in Hlo'. rewrite Hend in Hhi'.
    injection Hlo' as <-. injection Hhi' as <-.
    apply andb_true_iff. split; apply Z.leb_le; lia.
  - unfold Spec.specification.
    rewrite (range_of_active to_datetime s e lo hi); [reflexivity | | | ];
      try assumption.
    rewrite Hs, He. reflexivity.
Qed.

Lemma initial_view_drops_undated_witness :
  update_views_filtered_df Iso.to_datetime Sample.ABC None None
    (Some "2023-01-10T00:00:00") (Some "2023-06-01T00:00:00")
  = Ok {| columns := Sample.header; rows := [Sample.A; Sample.B] |}.
Proof.
  assert (H : exists app, load (Some Sample.ABC) = Ok app
                          /\ date_filter_start_date (layout app)
                             = Timestamp 1673308800000000000
                          /\ date_filter_end_date (layout app)
                             = Timestamp 1685577600000000000)
    by (eexists; repeat split; vm_compute; reflexivity).
  destruct H as (app & Happ & Hstart & Hend).
  rewrite (initial_view_drops_undated Iso.to_datetime Sample.ABC app
             (Some "2023-01-10T00:00:00") (Some "2023-06-01T00:00:00")
             1673308800000000000%Z 1685577600000000000%Z
             Happ eq_refl Hstart Hend eq_refl eq_refl eq_refl eq_refl).
  reflexivity.
Defined.

(** ** What the filter keeps, on any frame *)

Lemma select_rows_all {A : Type} (l : list A) :
  select_rows l (map (fun _ => true) l) = l.
Proof. rewrite select_rows_map. apply filter_true. Qed.

Lemma select_rows_compose {A : Type} (l : list A) :
  forall m1 m2,
    exists m, select_rows (select_rows l m1) m2 = select_rows l m.
Proof.
  induction l as [|x l IH]; intros m1 m2.
  - exists []. destruct m1; destruct m2; reflexivity.
  - destruct m1 as [|b m1].
    + exists []. destruct m2; reflexivity.
    + destruct b; cbn [select_rows].
      * destruct m2 as [|c m2]; [exists []; reflexivity|].
        destruct (IH m1 m2) as [m Hm]. exists (c :: m).
        cbn [select_rows]. rewrite Hm. reflexivity.
      * destruct (IH m1 m2) as [m Hm]. exists (false :: m). exact Hm.
Qed.

Lemma select_rows_length {A : Type} (l : list A) :
  forall m, List.length (select_rows l m) <= List.length l.
Proof.
  induction l as [|x l IH]; intros [|b m]; simpl; try lia.
  specialize (IH m). destruct b; simpl; lia.
Qed.

Lemma select_rows_In {A : Type} (l : list A) (x : A) :
  forall m, In x (select_rows l m) -> In x l.
Proof.
  induction l as [|y l IH]; intros [|b m]; simpl; try tauto.
  destruct b; simpl; [intros [H | H]|intros H]; eauto.
Qed.

Section Selection.

Variable to_datetime : string -> option Z.

(** Whatever the frame holds, the rows of the filtered frame are rows
    of the frame, selected by a mask. *)
Lemma filtered_df_select (df fd : DataFrame)
    (selected_srp_nums selected_scientific_names : option (list value))
    (start_date end_date : option string) :
  update_views_filtered_df to_datetime df selected_srp_nums
    selected_scientific_names start_date end_date = Ok fd ->
  exists mask, rows fd = select_rows (rows df) mask.
Proof.
  unfold update_views_filtered_df, copy. intros H.
  set (f1 := if truthy_list selected_srp_nums then _ else _) in H.
  assert (H1 : forall d, f1 = Ok d ->
                         exists m, rows d = select_rows (rows df) m).
  { subst f1. intros d. destruct (truthy_list selected_srp_nums).
    - destruct (getitem df "SRP_Num"); simpl; [|discriminate].
      intros [= <-]. eexists. reflexivity.
    - intros [= <-]. eexists. symmetry. apply select_rows_all. }
  destruct f1 as [d1|]; [|discriminate]. rewrite bind_ok in H.
  destruct (H1 d1 eq_refl) as [m1 Hm1].
  set (f2 := if truthy_list selected_scientific_names then _ else _) in H.
  assert (H2 : forall d, f2 = Ok d ->
                         exists m, rows d = select_rows (rows d1) m).
  { subst f2. intros d. destruct (truthy_list selected_scientific_names).
    - destruct (getitem d1 "Scientific_Name"); simpl; [|discriminate].
      intros [= <-]. eexists. reflexivity.
    - intros [= <-]. eexists. symmetry. apply select_rows_all. }
  destruct f2 as [d2|]; [|discriminate]. rewrite bind_ok in H.
  destruct (H2 d2 eq_refl) as [m2 Hm2].
  assert (H3 : exists m, rows fd = select_rows (rows d2) m).
  { destruct (truthy_str start_date && truthy_str end_date).
    - destruct (getitem d2 "Observation_Date") as [s|]; [|discriminate].
      cbn [Py.bind] in H.
      destruct (ge to_datetime _ s (date_string start_date)); [|discriminate].
      cbn [Py.bind] in H.
      destruct (le to_datetime _ s (date_string end_date)); [|discriminate].
      cbn [Py.bind] in H. injection H as <-. eexists. reflexivity.
    - injection H as <-. eexists. symmetry. apply select_rows_all. }
  destruct H3 as [m3 Hm3]. rewrite Hm3, Hm2, Hm1.
  destruct (select_rows_compose (rows df) m1 m2) as [m12 H12]. rewrite H12.
  apply select_rows_compose.
Qed.

Lemma filtered_df_In (df fd : DataFrame)
    (selected_srp_nums selected_scientific_names : option (list value))
    (start_date end_date : option string) (record : list value) :
  update_views_filtered_df to_datetime df selected_srp_nums
    selected_scientific_names start_date end_date = Ok fd ->
  In record (rows fd) -> In record (rows df).
Proof.
  intros Hfd Hin. destruct (filtered_df_select _ _ _ _ _ _ Hfd) as [m Hm].
  rewrite Hm in Hin. exact (select_rows_In _ _ _ Hin).
Qed.

End Selection.

(** X5.  On every frame and for every filter state, when the filter
    returns it returns a frame with the columns of the input whose rows
    are rows of the input, selected in their order: it adds no record,
    alters no cell and reorders nothing. *)
Theorem filter_selects_rows :
  forall (to_datetime : string -> option Z) (df fd : DataFrame)
         (selected_srp_nums selected_scientific_names : option (list value))
         (start_date end_date : option string),
    update_views_filtered_df to_datetime df selected_srp_nums
      selected_scientific_names start_date end_date = Ok fd ->
    columns fd = columns df
    /\ (exists mask, rows fd = select_rows (rows df) mask)
    /\ len fd <= len df
    /\ (forall record, In record (rows fd) -> In record (rows df)).
Proof.
  intros to_datetime df fd a b s e Hfd.
  split; [exact (filtered_df_columns to_datetime df fd a b s e Hfd)|].
  destruct (filtered_df_select to_datetime df fd a b s e Hfd) as [m Hm].
  split; [exists m; exact Hm|]. split.
  - unfold len. rewrite Hm. apply select_rows_length.
  - intros record. rewrite Hm. apply select_rows_In.
Qed.

Lemma filter_selects_rows_witness :
  columns {| columns := Sample.header; rows := [Sample.B; Sample.C] |}
  = columns Sample.ABC
  /\ len {| columns := Sample.header; rows := [Sample.B; Sample.C] |}
     <= len Sample.ABC.
Proof.
  destruct (filter_selects_rows Iso.to_datetime Sample.ABC
              {| columns := Sample.header; rows := [Sample.B; Sample.C] |}
              (Some [Num 200]) None None None eq_refl)
    as (Hcols & _ & Hlen & _).
  split; [exact Hcols | exact Hlen].
Defined.

Lemma record_store_apply (df : DataFrame) (spec : Spec.FilterSpecification) :
  Spec.record_store df = true ->
  Spec.record_store (Spec.apply df spec) = true.
Proof.
  unfold Spec.record_store, Spec.apply, has_column, Spec.observation_date,
    row_get. cbn [columns rows].
  intros H. apply andb_true_iff in H as [Hcols Hdates].
  rewrite Hcols. cbn [andb]. apply forallb_filter. exact Hdates.
Qed.

Section Parsed.

Variable to_datetime : string -> option Z.

(** A record store with no record is returned as it is, whatever the
    filter state. *)
Lemma filtered_df_no_row (df : DataFrame)
    (selected_srp_nums selected_scientific_names : option (list value))
    (start_date end_date : option string) :
  Spec.record_store df = true ->
  rows df = [] ->
  update_views_filtered_df to_datetime df selected_srp_nums
    selected_scientific_names start_date end_date = Ok df.
Proof.
  intros Hstore Hrows. unfold Spec.record_store in Hstore.
  apply andb_true_iff in Hstore as [Hstore _].
  apply andb_true_iff in Hstore as [Hstore Hdate].
  apply andb_true_iff in Hstore as [Hsrp Hsci].
  unfold update_views_filtered_df, copy.
  rewrite (isin_stage df "SRP_Num" selected_srp_nums Hsrp), bind_ok.
  rewrite isin_stage by exact Hsci. rewrite bind_ok.
  rewrite (dtype_of_no_row df _ Hrows). cbn [columns rows].
  rewrite Hrows. cbn [filter].
  rewrite (getitem_has_column {| columns := columns df; rows := [] |}
             "Observation_Date" Hdate).
  destruct df as [cols rs]. cbn [rows columns] in *. subst rs.
  destruct (truthy_str start_date && truthy_str end_date); reflexivity.
Qed.

(** On a record store with a record the filter returns only when the
    dates given are dates. *)
Lemma filter_ok_specification (df fd : DataFrame)
    (selected_srp_nums selected_scientific_names : option (list value))
    (start_date end_date : option string) :
  Spec.record_store df = true ->
  rows df <> [] ->
  update_views_filtered_df to_datetime df selected_srp_nums
    selected_scientific_names start_date end_date = Ok fd ->
  exists spec,
    Spec.specification to_datetime selected_srp_nums
      selected_scientific_names start_date end_date = Some spec
    /\ fd = Spec.apply df spec.
Proof.
  intros Hstore Hne Hfd.
  destruct (Spec.specification to_datetime selected_srp_nums
              selected_scientific_names start_date end_date)
    as [spec|] eqn:Hspec.
  - exists spec. split; [reflexivity|].
    rewrite (filtered_df_apply to_datetime df _ _ _ _ spec Hstore Hspec) in Hfd.
    injection Hfd as <-. reflexivity.
  - exfalso. unfold Spec.specification, Spec.range_of in Hspec.
    unfold update_views_filtered_df, copy in Hfd.
    unfold Spec.record_store in Hstore.
    apply andb_true_iff in Hstore as [Hstore Hdates].
    apply andb_true_iff in Hstore as [Hstore Hdate].
    apply andb_true_iff in Hstore as [Hsrp Hsci].
    rewrite (isin_stage df "SRP_Num" selected_srp_nums Hsrp), bind_ok in Hfd.
    rewrite isin_stage in Hfd by exact Hsci. rewrite bind_ok in Hfd.
    destruct (truthy_str start_date && truthy_str end_date); [|discriminate].
    rewrite getitem_has_column in Hfd by exact Hdate.
    cbn [Py.bind] in Hfd.
    rewrite (dtype_of_record_store df Hdate Hdates Hne) in Hfd.
    unfold ge, le in Hfd.
    destruct (to_datetime (date_string start_date)); [|discriminate].
    cbn [Py.bind] in Hfd.
    destruct (to_datetime (date_string end_date)); discriminate.
Qed.

End Parsed.

(** X6.  On a record store, filtering the filtered frame again with the
    same filter state returns it unchanged. *)
Theorem filter_idempotent :
  forall (to_datetime : string -> option Z) (df fd : DataFrame)
         (selected_srp_nums selected_scientific_names : option (list value))
         (start_date end_date : option string),
    Spec.record_store df = true ->
    update_views_filtered_df to_datetime df selected_srp_nums
      selected_scientific_names start_date end_date = Ok fd ->
    update_views_filtered_df to_datetime fd selected_srp_nums
      selected_scientific_names start_date end_date = Ok fd.
Proof.
  intros to_datetime df fd a b s e Hstore Hfd.
  destruct (rows df) as [|r rs] eqn:Hrows.
  - rewrite (filtered_df_no_row to_datetime df a b s e Hstore Hrows) in Hfd.
    injection Hfd as <-.
    exact (filtered_df_no_row to_datetime df a b s e Hstore Hrows).
  - assert (Hne : rows df <> []) by (rewrite Hrows; discriminate).
    destruct (filter_ok_specification to_datetime df fd a b s e Hstore Hne Hfd)
      as (spec & Hspec & ->).
    rewrite (filtered_df_apply to_datetime _ a b s e spec
               (record_store_apply df spec Hstore) Hspec).
    rewrite apply_idempotent. reflexivity.
Qed.

Lemma filter_idempotent_witness :
  update_views_filtered_df Iso.to_datetime
    {| columns := Sample.header; rows := [Sample.A] |}
    None (Some [Str "Ursus americanus"]) (Some "2023-01-01") (Some "2023-01-31")
  = Ok {| columns := Sample.header; rows := [Sample.A] |}.
Proof.
  apply (filter_idempotent Iso.to_datetime Sample.ABC
           {| columns := Sample.header; rows := [Sample.A] |}
           None (Some [Str "Ursus americanus"])
           (Some "2023-01-01") (Some "2023-01-31"));
    reflexivity.
Defined.

(** ** The views of one call *)

Lemma forallb_false_exists {A : Type} (f : A -> bool) (l : list A) :
  forallb f l = false -> exists x, In x l /\ f x = false.
Proof.
  induction l as [|x l IH]; simpl; [discriminate|].
  destruct (f x) eqn:Hx.
  - intros H. destruct (IH H) as (y & Hy & Hfy). exists y. tauto.
  - intros _. exists x. tauto.
Qed.

Section ViewsOfACall.

Variable to_datetime : string -> option Z.

(** What a call of [update_views] that returns has computed. *)
Lemma update_views_inv (df : DataFrame) (views : Views)
    (selected_srp_nums selected_scientific_names : option (list value))
    (start_date end_date : option string) :
  update_views to_datetime df selected_srp_nums selected_scientific_names
    start_date end_date = Ok views ->
  exists fd fig,
    update_views_filtered_df to_datetime df selected_srp_nums
      selected_scientific_names start_date end_date = Ok fd
    /\ forallb (has_column df) Spec.view_columns = true
    /\ scatter_mapbox fd "Latitude_or_transect_start_latitude"
         "Longitude_or_transect_start_longitude" hover_columns 5
         "open-street-map" = Ok fig
    /\ views = {| spatial_map := fig;
                  table_output := table_of fd;
                  record_count := record_count_of fd;
                  table_record_count := record_count_of fd;
                  statistics_output :=
                    stats_table_of (map (Spec.srp_number fd) (rows fd))
                                   (map (Spec.scientific_name fd) (rows fd)) |}.
Proof.
  intros Hviews.
  destruct (update_views_filtered_df to_datetime df selected_srp_nums
              selected_scientific_names start_date end_date) as [fd|ex] eqn:Hfd.
  2:{ unfold update_views in Hviews. rewrite Hfd in Hviews. discriminate. }
  destruct (forallb (has_column df) Spec.view_columns) eqn:Hcols.
  - destruct (update_views_ok to_datetime df fd _ _ _ _ Hfd Hcols)
      as (fig & Hfig & Hok).
    exists fd, fig. rewrite Hok in Hviews. injection Hviews as <-.
    repeat split; assumption.
  - destruct (forallb_false_exists _ _ Hcols) as (col & Hin & Hcol).
    destruct (update_views_missing_column to_datetime df col selected_srp_nums
                selected_scientific_names start_date end_date Hin Hcol)
      as [ex Hex].
    congruence.
Qed.

End ViewsOfACall.

(** X7.  When the filter returns, [update_views] returns exactly when
    the frame has the seven columns that the map and the statistics
    read; otherwise it raises. *)
Theorem update_views_succeeds_iff :
  forall (to_datetime : string -> option Z) (df fd : DataFrame)
         (selected_srp_nums selected_scientific_names : option (list value))
         (start_date end_date : option string),
    update_views_filtered_df to_datetime df selected_srp_nums
      selected_scientific_names start_date end_date = Ok fd ->
    ((exists views,
        update_views to_datetime df selected_srp_nums
          selected_scientific_names start_date end_date = Ok views)
     <-> forallb (has_column df) Spec.view_columns = true)
    /\ (forallb (has_column df) Spec.view_columns = false ->
        raises (update_views to_datetime df selected_srp_nums
                  selected_scientific_names start_date end_date)).
Proof.
  intros to_datetime df fd a b s e Hfd. split; [split|].
  - intros [views Hviews].
    destruct (update_views_inv to_datetime df views a b s e Hviews)
      as (fd' & fig & _ & Hcols & _). exact Hcols.
  - intros Hcols.
    destruct (update_views_ok to_datetime df fd a b s e Hfd Hcols)
      as (fig & _ & Hok).
    eexists. exact Hok.
  - intros Hcols.
    destruct (forallb_false_exists _ _ Hcols) as (col & Hin & Hcol).
    exact (update_views_missing_column to_datetime df col a b s e Hin Hcol).
Qed.

Lemma update_views_succeeds_iff_witness :
  (exists views,
     update_views Iso.to_datetime Sample.ABC None None None None = Ok views)
  /\ raises (update_views Iso.to_datetime Sample.no_county None None None None).
Proof.
  split.
  - apply (proj1 (update_views_succeeds_iff Iso.to_datetime Sample.ABC
                    Sample.ABC None None None None eq_refl)).
    reflexivity.
  - apply (proj2 (update_views_succeeds_iff Iso.to_datetime Sample.no_county
                    Sample.no_county None None None None eq_refl)).
    reflexivity.
Defined.

(** X1.  In every call of [update_views] that returns, the record count
    of the map tab and the record count of the table tab are the same
    text, and the number it shows is the number of rows of the table and
    the number of entries of the map figure. *)
Theorem record_count_consistent :
  forall (to_datetime : string -> option Z) (df : DataFrame) (views : Views)
         (selected_srp_nums selected_scientific_names : option (list value))
         (start_date end_date : option string),
    update_views to_datetime df selected_srp_nums selected_scientific_names
      start_date end_date = Ok views ->
    record_count views = table_record_count views
    /\ record_count views
       = ("Record Count: "
          ++ str_nat (List.length (Spec.table_rows (table_output views))))%string
    /\ List.length (Plotly.lat (spatial_map views))
       = List.length (Spec.table_rows (table_output views)).
Proof.
  intros to_datetime df views a b s e Hviews.
  destruct (update_views_inv to_datetime df views a b s e Hviews)
    as (fd & fig & _ & _ & Hfig & ->).
  cbn [record_count table_record_count table_output spatial_map].
  rewrite table_rows_table_of, length_map.
  split; [reflexivity|]. split; [reflexivity|].
  exact (scatter_mapbox_length fd fig Hfig).
Qed.

Lemma record_count_consistent_witness :
  exists views,
    update_views Iso.to_datetime Sample.ABC (Some [Num 200]) None None None
    = Ok views
    /\ record_count views = table_record_count views
    /\ record_count views = "Record Count: 2".
Proof.
  assert (H : exists views,
                update_views Iso.to_datetime Sample.ABC (Some [Num 200])
                  None None None = Ok views
                /\ record_count views = "Record Count: 2")
    by (eexists; split; vm_compute; reflexivity).
  destruct H as (views & Hviews & Hcount). exists views.
  split; [exact Hviews|]. split; [|exact Hcount].
  exact (proj1 (record_count_consistent Iso.to_datetime Sample.ABC views
                  (Some [Num 200]) None None None Hviews)).
Defined.

(** ** The table *)

Lemma index_of_middle (c : string) (pre post : list string) :
  ~ In c pre -> index_of c (pre ++ c :: post) = Some (List.length pre).
Proof.
  induction pre as [|p pre IH]; intros Hnot; simpl.
  - rewrite String.eqb_refl. reflexivity.
  - destruct (String.eqb c p) eqn:Hcp.
    + apply String.eqb_eq in Hcp. subst p. exfalso. apply Hnot. left.
      reflexivity.
    + rewrite IH; [reflexivity|]. intros Hin. apply Hnot. right. exact Hin.
Qed.

(** Reading a row label by label gives the row back, when the labels
    are distinct and the row has one cell per label. *)
Lemma cells_by_label (rest : list string) :
  forall (pre : list string) (row_pre row_rest : list value),
    NoDup (pre ++ rest) ->
    List.length row_pre = List.length pre ->
    List.length row_rest = List.length rest ->
    map (fun col => match index_of col (pre ++ rest) with
                    | Some i => cell_at i (row_pre ++ row_rest)
                    | None => NaN
                    end) rest
    = row_rest.
Proof.
  induction rest as [|c rest IH]; intros pre row_pre row_rest Hnd Hpre Hrest.
  - destruct row_rest; [reflexivity | discriminate].
  - destruct row_rest as [|v row_rest]; [discriminate|].
    cbn [map]. f_equal.
    + rewrite index_of_middle by (apply NoDup_remove_2 in Hnd; intros Hin;
        apply Hnd; apply in_or_app; left; exact Hin).
      unfold cell_at. rewrite <- Hpre. apply nth_middle.
    + specialize (IH (pre ++ [c]) (row_pre ++ [v]) row_rest).
      rewrite <- !app_assoc in IH. cbn [app] in IH. apply IH.
      * exact Hnd.
      * rewrite !length_app. simpl. lia.
      * simpl in Hrest. lia.
Qed.

Lemma table_of_well_formed (df : DataFrame) :
  Spec.well_formed df ->
  Spec.table_header (table_of df) = columns df
  /\ Spec.table_rows (table_of df) = rows df.
Proof.
  intros [Hnd Hrows]. split.
  - unfold table_of, Spec.table_header. rewrite map_map.
    apply map_id.
  - rewrite table_rows_table_of.
    rewrite <- (map_id (rows df)) at 2. apply map_ext_in.
    intros record Hin. rewrite Forall_forall in Hrows.
    specialize (Hrows record Hin). unfold row_get.
    exact (cells_by_label (columns df) [] [] record Hnd eq_refl Hrows).
Qed.

Section WellFormed.

Variable to_datetime : string -> option Z.

(** The filter keeps a well-formed frame well formed. *)
Lemma filtered_df_well_formed (df fd : DataFrame)
    (selected_srp_nums selected_scientific_names : option (list value))
    (start_date end_date : option string) :
  Spec.well_formed df ->
  update_views_filtered_df to_datetime df selected_srp_nums
    selected_scientific_names start_date end_date = Ok fd ->
  Spec.well_formed fd.
Proof.
  intros [Hnd Hrows] Hfd. unfold Spec.well_formed.
  rewrite (filtered_df_columns to_datetime _ _ _ _ _ _ Hfd).
  split; [exact Hnd|]. rewrite Forall_forall in Hrows |- *.
  intros record Hin. apply Hrows.
  exact (filtered_df_In to_datetime _ _ _ _ _ _ record Hfd Hin).
Qed.

End WellFormed.

(** X10.  For a workbook with distinct column labels and one cell per
    column in every row, the table of a call of [update_views] that
    returns has the column labels of the workbook as its header, and its
    body rows are the records of the filtered frame, whole and in
    order. *)
Theorem table_shows_records :
  forall (to_datetime : string -> option Z) (df : DataFrame) (views : Views)
         (selected_srp_nums selected_scientific_names : option (list value))
         (start_date end_date : option string),
    Spec.well_formed df ->
    update_views to_datetime df selected_srp_nums selected_scientific_names
      start_date end_date = Ok views ->
    exists fd,
      update_views_filtered_df to_datetime df selected_srp_nums
        selected_scientific_names start_date end_date = Ok fd
      /\ Spec.table_header (table_output views) = columns df
      /\ Spec.table_rows (table_output views) = rows fd.
Proof.
  intros to_datetime df views a b s e Hwf Hviews.
  destruct (update_views_inv to_datetime df views a b s e Hviews)
    as (fd & fig & Hfd & _ & _ & ->).
  exists fd. split; [exact Hfd|]. cbn [table_output].
  destruct (table_of_well_formed fd
              (filtered_df_well_formed to_datetime df fd a b s e Hwf Hfd))
    as [Hhead Hbody].
  rewrite Hhead, Hbody.
  rewrite (filtered_df_columns to_datetime _ _ _ _ _ _ Hfd).
  split; reflexivity.
Qed.

Lemma sample_well_formed : Spec.well_formed Sample.ABC.
Proof.
  split.
  - unfold Sample.ABC, Sample.header. cbn [columns].
    repeat (constructor; [simpl; intuition discriminate|]). constructor.
  - repeat constructor.
Defined.

Lemma table_shows_records_witness :
  exists views,
    update_views Iso.to_datetime Sample.ABC (Some [Num 200]) None None None
    = Ok views
    /\ Spec.table_header (table_output views) = Sample.header
    /\ Spec.table_rows (table_output views) = [Sample.B; Sample.C].
Proof.
  assert (H : exists views,
                update_views Iso.to_datetime Sample.ABC (Some [Num 200])
                  None None None = Ok views)
    by (eexists; vm_compute; reflexivity).
  destruct H as (views & Hviews). exists views. split; [exact Hviews|].
  destruct (table_shows_records Iso.to_datetime Sample.ABC views
              (Some [Num 200]) None None None sample_well_formed Hviews)
    as (fd & Hfd & Hhead & Hbody).
  vm_compute in Hfd. injection Hfd as <-.
  split; [exact Hhead | exact Hbody].
Defined.

(** X13.  For a workbook with distinct column labels and one cell per
    column in every row, and one filter state, the export of a click is
    the written form of the frame that the table shows: read back, its
    header record is the header of the table and its data records are
    the written rows of the body of the table, provided no label and no
    written cell has a carriage return left unquoted. *)
Theorem export_matches_table :
  forall (to_datetime : string -> option Z)
         (format_column : string -> Series -> list string)
         (df : DataFrame) (views : Views) (n_clicks : option Z)
         (selected_srp_nums selected_scientific_names : option (list value))
         (start_date end_date : option string),
    Spec.well_formed df ->
    truthy_int n_clicks = true ->
    update_views to_datetime df selected_srp_nums selected_scientific_names
      start_date end_date = Ok views ->
    Csv.no_bare_CR
      (Spec.table_header (table_output views)
       :: written_rows format_column (Spec.table_frame (table_output views)))
    = true ->
    exists file,
      download_data to_datetime format_column df n_clicks selected_srp_nums
        selected_scientific_names start_date end_date = Ok (Update file)
      /\ Csv.reader (content file)
         = Spec.table_header (table_output views)
           :: written_rows format_column
                (Spec.table_frame (table_output views)).
Proof.
  intros to_datetime format_column df views n a b s e Hwf Hn Hviews Hcr.
  destruct (update_views_inv to_datetime df views a b s e Hviews)
    as (fd & fig & Hfd & _ & _ & ->).
  cbn [table_output] in *.
  destruct (table_of_well_formed fd
              (filtered_df_well_formed to_datetime df fd a b s e Hwf Hfd))
    as [Hhead Hbody].
  unfold Spec.table_frame in *. rewrite Hhead, Hbody, frame_eta in *.
  exists (send_data_frame (to_csv format_column fd) "filtered_srp_data.csv").
  split.
  - unfold download_data. rewrite Hn. cbn [negb].
    change (download_data_filtered_df to_datetime df a b s e)
      with (update_views_filtered_df to_datetime df a b s e).
    rewrite Hfd. reflexivity.
  - cbn [send_data_frame content]. apply reader_to_csv. exact Hcr.
Qed.

Lemma export_matches_table_witness :
  exists views file,
    update_views Iso.to_datetime Sample.ABC (Some [Num 100]) None None None
    = Ok views
    /\ download_data Iso.to_datetime (Render.format_column Sample.ABC)
         Sample.ABC (Some 2%Z) (Some [Num 100]) None None None
       = Ok (Update file)
    /\ Csv.reader (content file)
       = Spec.table_header (table_output views)
         :: written_rows (Render.format_column Sample.ABC)
              (Spec.table_frame (table_output views)).
Proof.
  assert (H : exists views,
                update_views Iso.to_datetime Sample.ABC (Some [Num 100])
                  None None None = Ok views
                /\ Csv.no_bare_CR
                     (Spec.table_header (table_output views)
                      :: written_rows (Render.format_column Sample.ABC)
                           (Spec.table_frame (table_output views)))
                   = true).
  { eexists. split; [vm_compute; reflexivity|]. vm_compute. reflexivity. }
  destruct H as (views & Hviews & Hcr).
  destruct (export_matches_table Iso.to_datetime
              (Render.format_column Sample.ABC) Sample.ABC views
              (Some 2%Z) (Some [Num 100]) None None None
              sample_well_formed eq_refl Hviews Hcr)
    as (file & Hfile & Hread).
  exists views, file. repeat split; assumption.
Defined.

(** ** The statistics, counted *)

Lemma distinct_le_length (s : Series) : Spec.distinct s <= List.length s.
Proof.
  unfold Spec.distinct. apply NoDup_incl_length; [apply NoDup_nodup|].
  intros x Hx. apply nodup_In in Hx. exact Hx.
Qed.

Lemma distinct_le_incl (s sel : list value) :
  incl s sel -> Spec.distinct s <= List.length sel.
Proof.
  intros Hincl. unfold Spec.distinct.
  apply NoDup_incl_length; [apply NoDup_nodup|].
  intros x Hx. apply Hincl. apply nodup_In in Hx. exact Hx.
Qed.

Lemma member_In (v : value) (sel : option (list value)) :
  truthy_list sel = true ->
  Spec.member v (selection sel) = true -> In v (selection sel).
Proof.
  destruct sel as [[|x l]|]; try discriminate. intros _.
  unfold selection, Spec.member. intros H.
  apply existsb_exists in H as (w & Hw & Heq).
  apply value_eqb_eq in Heq. subst w. exact Hw.
Qed.

(** X11.  On a record store, each of the two counts of the statistics
    is at most the number of records of the filtered frame, and is at
    most the number of values selected in its dropdown when something is
    selected there. *)
Theorem statistics_bounded :
  forall (to_datetime : string -> option Z) (df fd : DataFrame)
         (selected_srp_nums selected_scientific_names : option (list value))
         (start_date end_date : option string),
    Spec.record_store df = true ->
    update_views_filtered_df to_datetime df selected_srp_nums
      selected_scientific_names start_date end_date = Ok fd ->
    List.length (unique (map (Spec.srp_number fd) (rows fd))) <= len fd
    /\ List.length (unique (map (Spec.scientific_name fd) (rows fd))) <= len fd
    /\ (truthy_list selected_srp_nums = true ->
        List.length (unique (map (Spec.srp_number fd) (rows fd)))
        <= List.length (selection selected_srp_nums))
    /\ (truthy_list selected_scientific_names = true ->
        List.length (unique (map (Spec.scientific_name fd) (rows fd)))
        <= List.length (selection selected_scientific_names)).
Proof.
  intros to_datetime df fd a b s e Hstore Hfd.
  destruct (rows df) as [|r rs] eqn:Hrows.
  { rewrite (filtered_df_no_row to_datetime df a b s e Hstore Hrows) in Hfd.
    injection Hfd as <-. unfold len. rewrite Hrows. cbn.
    repeat split; intros; apply Nat.le_0_l. }
  assert (Hne : rows df <> []) by (rewrite Hrows; discriminate).
  clear r rs Hrows.
  destruct (filter_ok_specification to_datetime df fd a b s e Hstore Hne Hfd)
    as (spec & Hspec & ->).
  unfold Spec.specification in Hspec.
  destruct (Spec.range_of to_datetime s e) as [range|]; [|discriminate].
  injection Hspec as <-.
  rewrite !unique_distinct. unfold len.
  split; [|split; [|split]].
  - eapply Nat.le_trans; [apply distinct_le_length|].
    rewrite length_map. apply Nat.le_refl.
  - eapply Nat.le_trans; [apply distinct_le_length|].
    rewrite length_map. apply Nat.le_refl.
  - intros Ha. apply distinct_le_incl. intros v Hv.
    apply in_map_iff in Hv as (record & <- & Hin).
    cbn [Spec.apply rows] in Hin. apply filter_In in Hin as [_ Hsat].
    unfold Spec.satisfies in Hsat.
    apply andb_true_iff in Hsat as [Hsat _].
    apply andb_true_iff in Hsat as [Hsrp _].
    exact (member_In _ a Ha Hsrp).
  - intros Hb. apply distinct_le_incl. intros v Hv.
    apply in_map_iff in Hv as (record & <- & Hin).
    cbn [Spec.apply rows] in Hin. apply filter_In in Hin as [_ Hsat].
    unfold Spec.satisfies in Hsat.
    apply andb_true_iff in Hsat as [Hsat _].
    apply andb_true_iff in Hsat as [_ Hsci].
    exact (member_In _ b Hb Hsci).
Qed.

Lemma statistics_bounded_witness :
  List.length (unique (map (Spec.srp_number Sample.ABC) [Sample.B; Sample.C]))
  <= List.length [Num 200; Num 300; Num 400].
Proof.
  exact (proj1 (proj2 (proj2
           (statistics_bounded Iso.to_datetime Sample.ABC
              {| columns := Sample.header; rows := [Sample.B; Sample.C] |}
              (Some [Num 200; Num 300; Num 400]) None None None
              eq_refl eq_refl))) eq_refl).
Defined.

(** ** When the filter raises *)

Lemma has_column_mk (df : DataFrame) (r : list (list value)) (col : string) :
  has_column {| columns := columns df; rows := r |} col = has_column df col.
Proof. reflexivity. Qed.

(** A membership stage raises exactly when something is selected and
    the column is not there. *)
Lemma isin_stage_result (df : DataFrame) (col : string)
    (sel : option (list value)) :
  (if truthy_list sel then
     s <- getitem df col ;; Ok (loc df (isin s (selection sel)))
   else Ok df)
  = if truthy_list sel && negb (has_column df col)
    then Raise (KeyError col)
    else Ok {| columns := columns df;
               rows := filter (fun row => Spec.member (row_get df row col)
                                                      (selection sel))
                              (rows df) |}.
Proof.
  destruct (has_column df col) eqn:Hcol.
  - rewrite andb_false_r. apply isin_stage. exact Hcol.
  - rewrite andb_true_r. destruct (truthy_list sel) eqn:Hsel.
    + rewrite (getitem_no_column df col Hcol). reflexivity.
    + unfold selection. rewrite (truthy_list_false sel Hsel). simpl.
      rewrite filter_true, frame_eta. reflexivity.
Qed.

(** X15.  With no date range in force, the filter returns exactly when
    the frame has the column of each dropdown in which something is
    selected, whatever the cells hold; otherwise it raises [KeyError]
    for such a column that is missing. *)
Theorem filter_without_dates_succeeds_iff :
  forall (to_datetime : string -> option Z) (df : DataFrame)
         (selected_srp_nums selected_scientific_names : option (list value))
         (start_date end_date : option string),
    truthy_str start_date && truthy_str end_date = false ->
    ((exists fd,
        update_views_filtered_df to_datetime df selected_srp_nums
          selected_scientific_names start_date end_date = Ok fd)
     <-> forallb (has_column df)
           (Spec.needed_columns selected_srp_nums selected_scientific_names
              start_date end_date) = true)
    /\ (forallb (has_column df)
          (Spec.needed_columns selected_srp_nums selected_scientific_names
             start_date end_date) = false ->
        exists col,
          In col (Spec.needed_columns selected_srp_nums
                    selected_scientific_names start_date end_date)
          /\ has_column df col = false
          /\ update_views_filtered_df to_datetime df selected_srp_nums
               selected_scientific_names start_date end_date
             = Raise (KeyError col)).
Proof.
  intros to_datetime df a b s e Hact.
  unfold update_views_filtered_df, copy, Spec.needed_columns.
  rewrite Hact, (isin_stage_result df "SRP_Num" a), app_nil_r.
  destruct (truthy_list a) eqn:Ha;
    destruct (has_column df "SRP_Num") eqn:Hsrp; cbn [andb negb Py.bind app].
  2:{ cbn [forallb]. rewrite Hsrp. cbn [andb]. split.
      - split; [intros [fd Hfd]; discriminate | discriminate].
      - intros _. exists "SRP_Num". split; [left; reflexivity|].
        split; [exact Hsrp | reflexivity]. }
  all: rewrite (isin_stage_result _ "Scientific_Name" b);
    rewrite (has_column_mk df _ "Scientific_Name");
    destruct (truthy_list b) eqn:Hb;
    destruct (has_column df "Scientific_Name") eqn:Hsci;
    cbn [andb negb Py.bind app forallb]; rewrite ?Hsrp, ?Hsci; cbn [andb].
  all: split;
    [split; [intros [fd Hfd]; first [reflexivity | discriminate]
            | intros H; first [discriminate | eexists; reflexivity]]
    | intros H; try discriminate].
  all: exists "Scientific_Name"; split;
    [simpl; tauto | split; [exact Hsci | reflexivity]].
Qed.

Lemma filter_without_dates_succeeds_iff_witness :
  (exists fd,
     update_views_filtered_df Iso.to_datetime
       {| columns := ["SRP_Num"]; rows := [[Str "x"]; [Num 100]] |}
       (Some [Num 100]) None (Some "2023-01-01") None = Ok fd)
  /\ exists col,
       update_views_filtered_df Iso.to_datetime
         {| columns := ["SRP_Num"]; rows := [[Str "x"]; [Num 100]] |}
         (Some [Num 100]) (Some [Str "Lynx rufus"]) None None
       = Raise (KeyError col).
Proof.
  split.
  - apply (proj1 (filter_without_dates_succeeds_iff Iso.to_datetime
                    {| columns := ["SRP_Num"]; rows := [[Str "x"]; [Num 100]] |}
                    (Some [Num 100]) None (Some "2023-01-01") None eq_refl)).
    reflexivity.
  - destruct (proj2 (filter_without_dates_succeeds_iff Iso.to_datetime
                       {| columns := ["SRP_Num"];
                          rows := [[Str "x"]; [Num 100]] |}
                       (Some [Num 100]) (Some [Str "Lynx rufus"]) None None
                       eq_refl) eq_refl)
      as (col & _ & _ & Hraise).
    exists col. exact Hraise.
Defined.

(** X9.  On a record store with at least one record and both dates
    given, the filter returns exactly when both dates are dates; when
    one is not, it raises [TypeError], whatever the dropdowns select.  On
    a record store with no record it returns the frame, whatever the
    dates are. *)
Theorem filter_with_dates_succeeds_iff :
  forall (to_datetime : string -> option Z) (df : DataFrame)
         (selected_srp_nums selected_scientific_names : option (list value))
         (start_date end_date : option string),
    Spec.record_store df = true ->
    truthy_str start_date = true ->
    truthy_str end_date = true ->
    (rows df <> [] ->
     ((exists fd,
         update_views_filtered_df to_datetime df selected_srp_nums
           selected_scientific_names start_date end_date = Ok fd)
      <-> exists lo hi,
            to_datetime (date_string start_date) = Some lo
            /\ to_datetime (date_string end_date) = Some hi)
     /\ (to_datetime (date_string start_date) = None
         \/ to_datetime (date_string end_date) = None ->
         update_views_filtered_df to_datetime df selected_srp_nums
           selected_scientific_names start_date end_date = Raise TypeError))
    /\ (rows df = [] ->
        update_views_filtered_df to_datetime df selected_srp_nums
          selected_scientific_names start_date end_date = Ok df).
Proof.
  intros to_datetime df a b s e Hstore Hs He.
  assert (Hact : truthy_str s && truthy_str e = true)
    by (rewrite Hs, He; reflexivity).
  split; [|apply filtered_df_no_row; exact Hstore].
  intros Hne. split; [split|].
  - intros [fd Hfd].
    destruct (filter_ok_specification to_datetime df fd a b s e Hstore Hne Hfd)
      as (spec & Hspec & _).
    unfold Spec.specification, Spec.range_of in Hspec. rewrite Hact in Hspec.
    destruct (to_datetime (date_string s)) as [lo|]; [|discriminate].
    destruct (to_datetime (date_string e)) as [hi|]; [|discriminate].
    exists lo, hi. split; reflexivity.
  - intros (lo & hi & Hlo & Hhi).
    eexists. apply filtered_df_apply; [exact Hstore|].
    unfold Spec.specification.
    rewrite (range_of_active to_datetime s e lo hi Hact Hlo Hhi). reflexivity.
  - intros Hnone. unfold Spec.record_store in Hstore.
    apply andb_true_iff in Hstore as [Hstore Hdates].
    apply andb_true_iff in Hstore as [Hstore Hdate].
    apply andb_true_iff in Hstore as [Hsrp Hsci].
    unfold update_views_filtered_df, copy.
    rewrite (isin_stage df "SRP_Num" a Hsrp), bind_ok.
    rewrite isin_stage by exact Hsci. rewrite bind_ok, Hact.
    rewrite getitem_has_column by exact Hdate. cbn [Py.bind].
    rewrite (dtype_of_record_store df Hdate Hdates Hne).
    unfold ge, le.
    destruct (to_datetime (date_string s)) as [lo|]; [|reflexivity].
    cbn [Py.bind].
    destruct (to_datetime (date_string e)) as [hi|]; [|reflexivity].
    destruct Hnone; discriminate.
Qed.

Lemma filter_with_dates_succeeds_iff_witness :
  update_views_filtered_df Iso.to_datetime Sample.ABC (Some [Num 300]) None
    (Some "2023-02-30") (Some "2023-12-31")
  = Raise TypeError
  /\ update_views_filtered_df Iso.to_datetime
       {| columns := Sample.header; rows := [] |} None None
       (Some "2023-02-30") (Some "2023-12-31")
     = Ok {| columns := Sample.header; rows := [] |}.
Proof.
  split.
  - apply (proj1 (filter_with_dates_succeeds_iff Iso.to_datetime Sample.ABC
                    (Some [Num 300]) None (Some "2023-02-30")
                    (Some "2023-12-31") eq_refl eq_refl eq_refl)).
    + discriminate.
    + left. reflexivity.
  - apply (proj2 (filter_with_dates_succeeds_iff Iso.to_datetime
                    {| columns := Sample.header; rows := [] |}
                    None None (Some "2023-02-30") (Some "2023-12-31")
                    eq_refl eq_refl eq_refl)).
    reflexivity.
Defined.

(** X14.  A click with nothing selected and no date range in force
    exports the whole frame, whatever its columns are (none is read):
    the export returns, and when no label and no written cell has a
    carriage return left unquoted its records are the header and the
    written row of every row of the frame. *)
Theorem export_unfiltered :
  forall (to_datetime : string -> option Z)
         (format_column : string -> Series -> list string)
         (df : DataFrame) (n_clicks : option Z)
         (selected_srp_nums selected_scientific_names : option (list value))
         (start_date end_date : option string),
    truthy_int n_clicks = true ->
    truthy_list selected_srp_nums = false ->
    truthy_list selected_scientific_names = false ->
    truthy_str start_date && truthy_str end_date = false ->
    exists file,
      download_data to_datetime format_column df n_clicks selected_srp_nums
        selected_scientific_names start_date end_date = Ok (Update file)
      /\ content file = to_csv format_column df
      /\ (Csv.no_bare_CR (columns df :: written_rows format_column df) = true ->
          Csv.reader (content file)
          = columns df :: written_rows format_column df
          /\ List.length (Csv.reader (content file)) = S (len df)).
Proof.
  intros to_datetime format_column df n a b s e Hn Ha Hb Hact.
  exists (send_data_frame (to_csv format_column df) "filtered_srp_data.csv").
  split; [|split].
  - unfold download_data, download_data_filtered_df, copy.
    rewrite Hn, Ha, Hb, Hact. reflexivity.
  - reflexivity.
  - intros Hcr. cbn [send_data_frame content].
    rewrite (reader_to_csv format_column df Hcr). split; [reflexivity|].
    cbn [List.length]. rewrite written_rows_length. reflexivity.
Qed.

Lemma export_unfiltered_witness :
  exists file,
    download_data Iso.to_datetime (Render.format_column Sample.no_county)
      Sample.no_county (Some 1%Z) None (Some []) (Some "2023-01-01") None
    = Ok (Update file)
    /\ List.length (Csv.reader (content file)) = 4.
Proof.
  destruct (export_unfiltered Iso.to_datetime
              (Render.format_column Sample.no_county) Sample.no_county
              (Some 1%Z) None (Some []) (Some "2023-01-01") None
              eq_refl eq_refl eq_refl eq_refl)
    as (file & Hfile & _ & Hread).
  exists file. split; [exact Hfile|].
  exact (proj2 (Hread eq_refl)).
Defined.
